(** * LinkedIn post generator API: the request handlers of [backend.py]

    A shallow embedding of the Flask views [generate_post],
    [regenerate_post] and [modify_post], of the helpers they call
    ([is_ollama_available], [generate_linkedin_post],
    [regenerate_linkedin_post], [modify_linkedin_post]) and of the four
    prompt templates.

    - Python text is a list of code points, so that [str.strip],
      [str.startswith], slicing and [in] read as they do in Python.
    - The model handle [llm] is a process global: either [None] (the
      constructor failed at start-up) or a stateful service whose
      [invoke] returns text or raises.  Every call to it is recorded,
      with its outcome, in the [calls] trace of the world.
    - A view runs in a state-and-exception monad; what Flask does with
      an exception that leaves a view is [dispatch].
    - Log lines are not part of the state.  Evaluating the argument of
      a log line can raise, and that is modelled. *)

From Stdlib Require Import String Ascii.
From stdpp Require Import gmap list.

(** ** Python text *)

Abbreviation pystr := (list N).

(** A source literal (ASCII) as Python text. *)
Definition py (s : string) : pystr :=
  (λ a, N_of_ascii a) <$> list_ascii_of_string s.

Local Open Scope N_scope.

(** [str.isspace] on one code point (CPython's [_PyUnicode_IsWhitespace]). *)
Definition is_space (c : N) : bool :=
  ((9 <=? c) && (c <=? 13)) || ((28 <=? c) && (c <=? 32))
  || (c =? 133) || (c =? 160) || (c =? 5760)
  || ((8192 <=? c) && (c <=? 8202))
  || (c =? 8232) || (c =? 8233) || (c =? 8239) || (c =? 8287)
  || (c =? 12288).

Fixpoint lstrip (s : pystr) : pystr :=
  match s with
  | [] => []
  | c :: t => if is_space c then lstrip t else s
  end.

Definition rstrip (s : pystr) : pystr := rev (lstrip (rev s)).

(** [s.strip()] *)
Definition strip (s : pystr) : pystr := rstrip (lstrip s).

(** Text made of whitespace only. *)
Definition blank (s : pystr) : Prop := Forall (λ c, is_space c = true) s.

(** [a == b] on text *)
Fixpoint str_eqb (a b : pystr) : bool :=
  match a, b with
  | [], [] => true
  | x :: a', y :: b' => (x =? y) && str_eqb a' b'
  | _, _ => false
  end.

(** [s.startswith(p)] *)
Fixpoint startswith (s p : pystr) {struct p} : bool :=
  match p, s with
  | [], _ => true
  | x :: p', y :: s' => (x =? y) && startswith s' p'
  | _ :: _, [] => false
  end.

(** [sub in s] on text *)
Fixpoint contains (s sub : pystr) : bool :=
  startswith s sub ||
  match s with
  | [] => false
  | _ :: t => contains t sub
  end.

(** [sep.join(l)] *)
Fixpoint join (sep : pystr) (l : list pystr) : pystr :=
  match l with
  | [] => []
  | [x] => x
  | x :: t => x ++ sep ++ join sep t
  end.

(** ** Request data: what [request.get_json()] returns

    A number is kept as the literal the parser read: the handlers never
    compute with it.  Besides the JSON numbers the parser reads the
    literals NaN, Infinity and -Infinity. *)

#[warnings="-register-all"]
Inductive json :=
  | JNull
  | JBool (b : bool)
  | JNum (literal : pystr)
  | JStr (s : pystr)
  | JArr (l : list json)
  | JObj (m : gmap pystr json).

(** [v == s] for a text literal [s] *)
Definition json_eq_str (v : json) (s : pystr) : bool :=
  match v with
  | JStr t => str_eqb t s
  | _ => false
  end.

(** What a call seen from inside [try: ... except Exception as e:] does:
    it returns text, or raises an exception [e] with [str(e) = msg]. *)
Inductive outcome :=
  | Returns (text : pystr)
  | Raises (msg : pystr).

Definition returned (o : outcome) : bool :=
  match o with
  | Returns _ => true
  | Raises _ => false
  end.

(** ** Prompt templates *)

Definition generate_template : pystr := py "
You are a professional LinkedIn post generator. Create an engaging and professional post based on the following context.
The post should follow LinkedIn best practices, include relevant hashtags, and be appropriately formatted.

USER CONTEXT:
{context}

LINKEDIN POST:
".

Definition regenerate_template : pystr := py "
You are a professional LinkedIn post generator. Create a NEW engaging and professional post based on the following context.
This should be completely different from any previous post.
The post should follow LinkedIn best practices, include relevant hashtags, and be appropriately formatted.

USER CONTEXT:
{context}

NEW LINKEDIN POST:
".

Definition reduce_template : pystr := py "
Make this LinkedIn post more concise while preserving the key message.
Aim for about half the original length.

ORIGINAL POST:
{post}

SHORTER LINKEDIN POST:
".

Definition elaborate_template : pystr := py "
Expand this LinkedIn post with more details, examples, or insights.
Make it more compelling and detailed while maintaining professionalism.

ORIGINAL POST:
{post}

EXPANDED LINKEDIN POST:
".

(** A parsed f-string template: literal characters and named fields.
    The four templates have one plain field each, no [{{] escapes and no
    format specifications, so the scan has only these two states. *)
Inductive piece :=
  | Lit (c : N)
  | Field (name : pystr).

Fixpoint scan (tpl : pystr) (field : option pystr) : list piece :=
  match tpl, field with
  | [], _ => []
  | c :: t, None =>
      if c =? 123 then scan t (Some []) else Lit c :: scan t None
  | c :: t, Some acc =>
      if c =? 125 then Field (rev acc) :: scan t None
      else scan t (Some (c :: acc))
  end.

Record PromptTemplate := { pieces : list piece }.

(** [PromptTemplate.from_template(tpl)] *)
Definition from_template (tpl : pystr) : PromptTemplate :=
  {| pieces := scan tpl None |}.

Fixpoint lookup_kwarg (name : pystr) (kwargs : list (pystr * pystr))
  : option pystr :=
  match kwargs with
  | [] => None
  | (k, v) :: rest => if str_eqb k name then Some v else lookup_kwarg name rest
  end.

Fixpoint fill (ps : list piece) (kwargs : list (pystr * pystr)) : outcome :=
  match ps with
  | [] => Returns []
  | Lit c :: rest =>
      match fill rest kwargs with
      | Returns t => Returns (c :: t)
      | Raises e => Raises e
      end
  | Field name :: rest =>
      match lookup_kwarg name kwargs with
      | None => Raises (py "'" ++ name ++ py "'")   (* str(KeyError(name)) *)
      | Some v =>
          match fill rest kwargs with
          | Returns t => Returns (v ++ t)
          | Raises e => Raises e
          end
      end
  end.

(** [prompt.format(name=value, ...)], the keyword values already rendered
    as text *)
Definition format (p : PromptTemplate) (kwargs : list (pystr * pystr))
  : outcome :=
  fill (pieces p) kwargs.

(** The text of a template before its field and after it: what [format]
    puts around the substituted value (lemma [format_one_field]). *)
Fixpoint before_field (tpl : pystr) : pystr :=
  match tpl with
  | [] => []
  | c :: t => if c =? 123 then [] else c :: before_field t
  end.

Fixpoint after_field (tpl : pystr) : pystr :=
  match tpl with
  | [] => []
  | c :: t => if c =? 125 then t else after_field t
  end.

(** ** The process: interpreter, model handle, world *)

(** [llm] is the module global of [backend.py]: [None] when
    [OllamaLLM(model=MODEL_NAME)] raised at start-up, otherwise a service
    with its own state.  [py_repr] is Python's [str()] on the values that
    are not text (numbers, booleans, [None], lists, dicts). *)
Class Process := {
  backend_state : Type;
  llm : option (backend_state → pystr → outcome * backend_state);
  py_repr : json → pystr;
}.

(** [str(v)], as [format] and f-strings apply it *)
Definition py_str `{Process} (v : json) : pystr :=
  match v with
  | JStr s => s
  | _ => py_repr v
  end.

Record world `{Process} := {
  backend : backend_state;
  calls : list (pystr * outcome);   (* every [llm.invoke], oldest first *)
}.

(** Exceptions that no [try] of the program catches. *)
Inductive uncaught :=
  | TypeError
  | KeyError
  | RecursionError
  | BadRequest.     (* werkzeug's HTTPException for status 400 *)

Inductive result (A : Type) :=
  | Ok (a : A)
  | Raise (e : uncaught).
Arguments Ok {A} a.
Arguments Raise {A} e.

Definition View `{Process} (A : Type) : Type := world → result A * world.

#[global] Instance view_ret `{Process} : MRet View := λ A a w, (Ok a, w).

#[global] Instance view_bind `{Process} : MBind View := λ A B k c w,
  match c w with
  | (Ok a, w') => k a w'
  | (Raise e, w') => (Raise e, w')
  end.

Definition raise `{Process} {A} (e : uncaught) : View A := λ w, (Raise e, w).

(** [llm.invoke(prompt)], seen from the enclosing [try] *)
Definition llm_invoke `{Process} (prompt : pystr) (w : world)
  : outcome * world :=
  match llm with
  | None =>
      (Raises (py "'NoneType' object has no attribute 'invoke'"), w)
  | Some service =>
      let '(o, s) := service (backend w) prompt in
      (o, {| backend := s; calls := calls w ++ [(prompt, o)] |})
  end.

Definition probe_prompt : pystr := py "Say hello in one word.".

Definition is_ollama_available `{Process} : View bool :=
  λ w, match llm with
       | None => (Ok false, w)
       | Some _ =>
           match llm_invoke probe_prompt w with
           | (Returns _, w') => (Ok true, w')
           | (Raises _, w') => (Ok false, w')
           end
       end.

(** The body shared by the three generation helpers:
    [try: return llm.invoke(prompt.format(name=value))]
    [except Exception as e: return label + str(e)].
    Python looks up [llm.invoke] before it evaluates the argument. *)
Definition invoke_template `{Process}
    (prompt : PromptTemplate) (name : pystr) (value : json) (label : pystr)
  : View pystr :=
  λ w, match llm, format prompt [(name, py_str value)] with
       | None, _ =>
           (Ok (label ++ py "'NoneType' object has no attribute 'invoke'"), w)
       | Some _, Raises msg => (Ok (label ++ msg), w)
       | Some _, Returns text =>
           match llm_invoke text w with
           | (Returns generated_text, w') => (Ok generated_text, w')
           | (Raises msg, w') => (Ok (label ++ msg), w')
           end
       end.

Definition generate_linkedin_post `{Process} (context : json) : View pystr :=
  let prompt := from_template generate_template in
  invoke_template prompt (py "context") context
    (py "Error generating LinkedIn post: ").

Definition regenerate_linkedin_post `{Process} (context : json)
  : View pystr :=
  let prompt := from_template regenerate_template in
  invoke_template prompt (py "context") context
    (py "Error regenerating LinkedIn post: ").

Definition modify_linkedin_post `{Process} (post action : json)
  : View pystr :=
  if json_eq_str action (py "reduce") then
    invoke_template (from_template reduce_template) (py "post") post
      (py "Error modifying LinkedIn post: ")
  else if json_eq_str action (py "elaborate") then
    invoke_template (from_template elaborate_template) (py "post") post
      (py "Error modifying LinkedIn post: ")
  else mret (py "Invalid action: " ++ py_str action).

(** ** Requests and responses *)

(** What [json.loads], as [request.get_json()] calls it, makes of a
    payload.  It is Python's parser, not a JSON validator.  It delivers
    a value for texts RFC 8259 does not allow (the literals NaN, Infinity
    and -Infinity).  It stops with a [ValueError] on malformed text, on
    bytes that do not decode, and also on a JSON text that holds an
    integer of more than 4300 digits.  On a text nested deeper than the
    interpreter's stack allows it stops with a [RecursionError], which
    is not a [ValueError]. *)
Inductive loaded :=
  | Loaded (data : json)
  | Malformed          (* ValueError *)
  | Exhausted.         (* RecursionError *)

(** A request as the views see it.  [is_json]: the mimetype is a JSON
    one, whatever the payload.  [json_body]: what the parser makes of the
    payload. *)
Record request := {
  is_json : bool;
  json_body : loaded;
}.

(** A payload seen from both sides: whether it is a JSON text in the
    sense of RFC 8259, and what the parser makes of it.  Neither decides
    the other, as the three cases above show. *)
Record sent_body := {
  json_text : bool;
  parsed : loaded;
}.

Definition received (mimetype_json : bool) (b : sent_body) : request :=
  {| is_json := mimetype_json; json_body := parsed b |}.

Inductive body :=
  | JsonError (error : pystr)      (* jsonify({"error": ...}) *)
  | JsonPost (post : pystr)        (* jsonify({"post": ...}) *)
  | ErrorPage.                     (* the page Flask writes for an exception *)

Record response := {
  payload : body;
  status : N;
}.

Definition respond (b : body) (code : N) : response :=
  {| payload := b; status := code |}.

(** [request.get_json()], called once [request.is_json] holds.  Flask
    turns the parser's [ValueError] into [BadRequest] and lets every
    other exception through. *)
Definition get_json `{Process} (req : request) : View json :=
  match json_body req with
  | Loaded data => mret data
  | Malformed => raise BadRequest
  | Exhausted => raise RecursionError
  end.

(** [key in data] *)
Definition py_in `{Process} (key : pystr) (data : json) : View bool :=
  match data with
  | JObj m => mret (bool_decide (is_Some (m !! key)))
  | JArr l => mret (existsb (λ v, json_eq_str v key) l)
  | JStr s => mret (contains s key)
  | JNull | JBool _ | JNum _ => raise TypeError
  end.

(** [data[key]] for a text key *)
Definition py_getitem `{Process} (data : json) (key : pystr) : View json :=
  match data with
  | JObj m =>
      match m !! key with
      | Some v => mret v
      | None => raise KeyError
      end
  | _ => raise TypeError
  end.

(** [v[:50]] *)
Definition py_slice50 `{Process} (v : json) : View json :=
  match v with
  | JStr s => mret (JStr (take 50 s))
  | JArr l => mret (JArr (take 50 l))
  | JObj _ => raise KeyError      (* TypeError before Python 3.12 *)
  | JNull | JBool _ | JNum _ => raise TypeError
  end.

(** ** The views *)

Definition unavailable : response :=
  respond (JsonError (py "Ollama service is not available")) 500.

Definition must_be_json : response :=
  respond (JsonError (py "Request must be JSON")) 400.

Definition invalid_action : response :=
  respond (JsonError (py "Invalid action. Use 'reduce' or 'elaborate'.")) 400.

(** The tail shared by the three views:
    [if isinstance(text, str) and text.startswith("Error"): ... 500]
    [return jsonify({"post": text.strip()})] *)
Definition reply (text : pystr) : response :=
  if startswith text (py "Error") then respond (JsonError text) 500
  else respond (JsonPost (strip text)) 200.

Definition generate_post `{Process} (req : request) : View response :=
  if negb (is_json req) then mret must_be_json
  else
    data ← get_json req;
    present ← py_in (py "context") data;
    if negb present then
      mret (respond (JsonError (py "Missing 'context' field")) 400)
    else
      available ← is_ollama_available;
      if negb available then mret unavailable
      else
        context ← py_getitem data (py "context");
        _ ← py_slice50 context;                       (* logger.info *)
        generated_text ← generate_linkedin_post context;
        mret (reply generated_text).

Definition regenerate_post `{Process} (req : request) : View response :=
  if negb (is_json req) then mret must_be_json
  else
    data ← get_json req;
    present ← py_in (py "context") data;
    if negb present then
      mret (respond (JsonError (py "Missing 'context' field")) 400)
    else
      available ← is_ollama_available;
      if negb available then mret unavailable
      else
        context ← py_getitem data (py "context");
        _ ← py_slice50 context;                       (* logger.info *)
        generated_text ← regenerate_linkedin_post context;
        mret (reply generated_text).

Definition required_fields : list pystr :=
  [py "context"; py "current_post"; py "action"].

(** [[field for field in fields if field not in data]] *)
Fixpoint missing_from `{Process} (fields : list pystr) (data : json)
  : View (list pystr) :=
  match fields with
  | [] => mret []
  | field :: rest =>
      present ← py_in field data;
      others ← missing_from rest data;
      mret (if negb present then field :: others else others)
  end.

Definition modify_post `{Process} (req : request) : View response :=
  if negb (is_json req) then mret must_be_json
  else
    data ← get_json req;
    missing_fields ← missing_from required_fields data;
    match missing_fields with
    | _ :: _ =>
        mret (respond
                (JsonError (py "Missing fields: "
                            ++ join (py ", ") missing_fields)) 400)
    | [] =>
        available ← is_ollama_available;
        if negb available then mret unavailable
        else
          _ ← py_getitem data (py "action");            (* logger.info *)
          action ← py_getitem data (py "action");
          if negb (json_eq_str action (py "reduce")
                   || json_eq_str action (py "elaborate")) then
            mret invalid_action
          else
            current_post ← py_getitem data (py "current_post");
            action ← py_getitem data (py "action");
            modified_text ← modify_linkedin_post current_post action;
            mret (reply modified_text)
    end.

(** What Flask answers when a view raises. *)
Definition dispatch `{Process} (view : View response) (w : world)
  : response * world :=
  match view w with
  | (Ok r, w') => (r, w')
  | (Raise BadRequest, w') => (respond ErrorPage 400, w')
  | (Raise _, w') => (respond ErrorPage 500, w')
  end.

(** The three POST routes. *)
Inductive endpoint :=
  | GeneratePost
  | RegeneratePost
  | ModifyPost.

Definition view_of `{Process} (e : endpoint) : request → View response :=
  match e with
  | GeneratePost => generate_post
  | RegeneratePost => regenerate_post
  | ModifyPost => modify_post
  end.

Definition handle `{Process} (e : endpoint) (req : request) (w : world)
  : response * world :=
  dispatch (view_of e req) w.

(** ** The shape of a run *)

(** The label each route's helper puts before [str(e)]. *)
Definition error_label (e : endpoint) : pystr :=
  match e with
  | GeneratePost => py "Error generating LinkedIn post: "
  | RegeneratePost => py "Error regenerating LinkedIn post: "
  | ModifyPost => py "Error modifying LinkedIn post: "
  end.

(** The text the helper of route [e] hands back to its view when the
    model call ended in [o]. *)
Definition generated (e : endpoint) (o : outcome) : pystr :=
  match o with
  | Returns text => text
  | Raises msg => error_label e ++ msg
  end.

(** The calls one request can add to the trace, with the response that
    goes with them (lemma [handle_shape]). *)
Inductive run_shape (e : endpoint) (r : response)
  : list (pystr * outcome) → Prop :=
  | no_call :
      status r ≠ 200 → run_shape e r []
  | probe_only o :
      status r ≠ 200 → run_shape e r [(probe_prompt, o)]
  | probe_then_template greeting prompt o :
      r = reply (generated e o) →
      run_shape e r [(probe_prompt, Returns greeting); (prompt, o)].

(** ** Stub processes, for running the views on concrete requests *)

(** Rendering used by the stubs for values that are not text. *)
Definition stub_repr (v : json) : pystr := py "<value>".

(** A backend that returns its prompt. *)
Definition echo_process : Process := {|
  backend_state := unit;
  llm := Some (λ _ prompt, (Returns prompt, tt));
  py_repr := stub_repr;
|}.

(** A backend that plays a script: one outcome per call, whatever the
    prompt, and an error once the script is over. *)
Definition scripted_process : Process := {|
  backend_state := list outcome;
  llm := Some (λ script _,
           match script with
           | o :: rest => (o, rest)
           | [] => (Raises (py "connection refused"), [])
           end);
  py_repr := stub_repr;
|}.

(** The process whose [OllamaLLM] constructor raised at start-up. *)
Definition down_process : Process := {|
  backend_state := unit;
  llm := None;
  py_repr := stub_repr;
|}.

Definition start `{Process} (s : backend_state) : world :=
  {| backend := s; calls := [] |}.

(** One request served by process [P], its backend in state [s] and no
    call made yet. *)
Definition run (P : Process) (s : @backend_state P)
    (e : endpoint) (req : request) : response * @world P :=
  @handle P e req (@start P s).

(** A request with a JSON mimetype whose payload the parser delivers as
    an object. *)
Definition object_request (m : gmap pystr json) : request :=
  {| is_json := true; json_body := Loaded (JObj m) |}.

Definition json_request (fields : list (pystr * json)) : request :=
  object_request (list_to_map fields).

(** The fields each view asks for. *)
Definition required_of (e : endpoint) : list pystr :=
  match e with
  | GeneratePost | RegeneratePost => [py "context"]
  | ModifyPost => required_fields
  end.

(** ** The status route, [GET /] *)

Definition MODEL_NAME : pystr := py "mistral:latest".

(** The dict [root] hands to [jsonify]. *)
Record api_report := {
  report_status : pystr;
  report_ollama_available : bool;
  report_model : pystr;
  report_endpoints : list pystr;
}.

Definition root `{Process} : View (api_report * N) :=
  ollama_available ← is_ollama_available;
  mret ({|
          report_status := py "API is running";
          report_ollama_available := ollama_available;
          report_model := MODEL_NAME;
          report_endpoints :=
            [py "/"; py "/health"; py "/generate_post";
             py "/regenerate_post"; py "/modify_post"];
        |}, 200).

(** ** Vocabulary for the properties of whole runs *)

(** Values [v] for which [v[:50]] is defined. *)
Definition sliceable (v : json) : bool :=
  match v with
  | JStr _ | JArr _ => true
  | _ => false
  end.

(** The template [generate_post] and [regenerate_post] fill. *)
Definition context_template (e : endpoint) : option pystr :=
  match e with
  | GeneratePost => Some generate_template
  | RegeneratePost => Some regenerate_template
  | ModifyPost => None
  end.

(** The template [modify_linkedin_post] picks for an action. *)
Definition action_template (action : json) : option pystr :=
  if json_eq_str action (py "reduce") then Some reduce_template
  else if json_eq_str action (py "elaborate") then Some elaborate_template
  else None.

(** A template with [value] in the place of its field. *)
Definition filled (tpl value : pystr) : pystr :=
  before_field tpl ++ value ++ after_field tpl.

Definition is_post (b : body) : bool :=
  match b with
  | JsonPost _ => true
  | _ => false
  end.

(** Every way a run of a POST route can go: what it answered and which
    calls it added (lemma [handle_cases]). *)
Inductive run_case `{Process} (e : endpoint) (w : world)
  : response → world → Prop :=
  | turned_away r :
      status r = 400 → is_post (payload r) = false → run_case e w r w
  | crashed_unprobed :
      run_case e w (respond ErrorPage 500) w
  | no_handle :
      llm = None → run_case e w unavailable w
  | probe_raised msg w1 :
      calls w1 = calls w ++ [(probe_prompt, Raises msg)] →
      run_case e w unavailable w1
  | crashed_probed greeting w1 :
      calls w1 = calls w ++ [(probe_prompt, Returns greeting)] →
      run_case e w (respond ErrorPage 500) w1
  | action_refused greeting w1 :
      e = ModifyPost →
      calls w1 = calls w ++ [(probe_prompt, Returns greeting)] →
      run_case e w invalid_action w1
  | not_sent greeting msg w1 :
      calls w1 = calls w ++ [(probe_prompt, Returns greeting)] →
      run_case e w (reply (generated e (Raises msg))) w1
  | answered greeting prompt o w2 :
      calls w2 = calls w ++ [(probe_prompt, Returns greeting); (prompt, o)] →
      run_case e w (reply (generated e o)) w2.

(** * Properties *)

(** ** Text *)

Lemma str_eqb_eq (a b : pystr) : str_eqb a b = true ↔ a = b.
Proof.
  revert b. induction a as [|x a IH]; intros [|y b]; simpl;
    [done | split; done | split; done |].
  rewrite andb_true_iff, N.eqb_eq, IH.
  split; [by intros [-> ->] | by intros [= -> ->]].
Qed.

Lemma startswith_prefix (s p : pystr) :
  startswith s p = true ↔ ∃ t, s = p ++ t.
Proof.
  revert s. induction p as [|x p IH]; intros s; simpl.
  - split; [by exists s | done].
  - destruct s as [|y s].
    + split; [done | intros [t Ht]; done].
    + rewrite andb_true_iff, N.eqb_eq, IH. split.
      * intros [Hxy [t Ht]]. subst. eauto.
      * intros [t Ht]. simplify_eq/=. eauto.
Qed.

Lemma contains_unfold (s sub : pystr) :
  contains s sub =
  startswith s sub || match s with [] => false | _ :: t => contains t sub end.
Proof. by destruct s. Qed.

Lemma contains_infix (s sub : pystr) :
  contains s sub = true ↔ ∃ a b, s = a ++ sub ++ b.
Proof.
  split.
  - induction s as [|c s IH]; rewrite contains_unfold, orb_true_iff.
    + intros [Hp | ?]; [|done].
      apply startswith_prefix in Hp as [t ->]. by exists [], t.
    + intros [Hp | Hc].
      * apply startswith_prefix in Hp as [t ->]. by exists [], t.
      * destruct (IH Hc) as (a & b & ->). by exists (c :: a), b.
  - intros (a & b & ->). induction a as [|c a IH].
    + rewrite contains_unfold, orb_true_iff. left.
      apply startswith_prefix. eauto.
    + simpl. rewrite IH. apply orb_true_r.
Qed.

Lemma contains_middle (a sub b : pystr) : contains (a ++ sub ++ b) sub = true.
Proof. apply contains_infix. eauto. Qed.

Lemma contains_suffix (a sub : pystr) : contains (a ++ sub) sub = true.
Proof. apply contains_infix. exists a, []. by rewrite app_nil_r. Qed.

Lemma contains_app_r (a s sub : pystr) :
  contains s sub = true → contains (a ++ s) sub = true.
Proof.
  rewrite !contains_infix. intros (l & r & ->).
  exists (a ++ l), r. by rewrite <- app_assoc.
Qed.

Lemma contains_join (sep f : pystr) (l : list pystr) :
  f ∈ l → contains (join sep l) f = true.
Proof.
  induction l as [|x l IH]; [by intros ?%elem_of_nil|].
  intros [-> | Hin]%elem_of_cons.
  - destruct l; simpl.
    + apply contains_infix. exists [], []. by rewrite app_nil_r.
    + apply contains_infix. by exists [], (sep ++ join sep (l :: l0)).
  - destruct l as [|y l]; [by apply elem_of_nil in Hin|].
    change (join sep (x :: y :: l)) with (x ++ sep ++ join sep (y :: l)).
    by apply contains_app_r, contains_app_r, IH.
Qed.

(** *** [strip] removes exactly the surrounding whitespace *)

Lemma lstrip_split (s : pystr) : ∃ l, s = l ++ lstrip s ∧ blank l.
Proof.
  induction s as [|c s (l & Hs & Hl)]; simpl.
  - exists []. split; [done | constructor].
  - destruct (is_space c) eqn:Hc.
    + exists (c :: l). split; [by rewrite <- app_comm_cons, <- Hs|].
      by constructor.
    + exists []. split; [done | constructor].
Qed.

Lemma lstrip_head (s : pystr) c t : lstrip s = c :: t → is_space c = false.
Proof.
  induction s as [|x s IH]; simpl; [done|].
  destruct (is_space x) eqn:Hx; [done|]. by intros [= <- _].
Qed.

Lemma rstrip_split (s : pystr) : ∃ t, s = rstrip s ++ t ∧ blank t.
Proof.
  destruct (lstrip_split (rev s)) as (l & Hs & Hl).
  exists (rev l). split; [|by apply Forall_rev].
  unfold rstrip. rewrite <- rev_app_distr, <- Hs. by rewrite rev_involutive.
Qed.

Lemma rstrip_last (s : pystr) r c : rstrip s = r ++ [c] → is_space c = false.
Proof.
  unfold rstrip. intros H. apply (f_equal (@rev N)) in H.
  rewrite rev_involutive, rev_app_distr in H. simpl in H.
  by eapply lstrip_head.
Qed.

Lemma strip_spec (s : pystr) :
  ∃ l t, s = l ++ strip s ++ t ∧ blank l ∧ blank t
         ∧ (∀ c r, strip s = c :: r → is_space c = false)
         ∧ (∀ r c, strip s = r ++ [c] → is_space c = false).
Proof.
  destruct (lstrip_split s) as (l & Hs & Hl).
  destruct (rstrip_split (lstrip s)) as (t & Hr & Ht).
  exists l, t. unfold strip. repeat split; [congruence | done | done | |].
  - intros c r Hc. rewrite Hc in Hr. by eapply lstrip_head.
  - intros r c. apply rstrip_last.
Qed.

Lemma lstrip_app (a b : pystr) : lstrip a ≠ [] → lstrip (a ++ b) = lstrip a ++ b.
Proof.
  induction a as [|c a IH]; simpl; [done|]. by destruct (is_space c).
Qed.

Lemma rstrip_app (a b : pystr) : rstrip b ≠ [] → rstrip (a ++ b) = a ++ rstrip b.
Proof.
  unfold rstrip. intros Hb. rewrite rev_app_distr, lstrip_app.
  - by rewrite rev_app_distr, rev_involutive.
  - intros Hnil. by rewrite Hnil in Hb.
Qed.

Lemma strip_app (a c b : pystr) :
  lstrip a ≠ [] → rstrip b ≠ [] →
  strip (a ++ c ++ b) = lstrip a ++ c ++ rstrip b.
Proof.
  intros Ha Hb. unfold strip. rewrite lstrip_app by done.
  rewrite !app_assoc, rstrip_app by done. done.
Qed.

(** ** Templates *)

(** What [format] makes of each of the four templates. *)
Lemma format_generate value :
  format (from_template generate_template) [(py "context", value)]
  = Returns (before_field generate_template ++ value
             ++ after_field generate_template).
Proof. vm_compute. reflexivity. Qed.

Lemma format_regenerate value :
  format (from_template regenerate_template) [(py "context", value)]
  = Returns (before_field regenerate_template ++ value
             ++ after_field regenerate_template).
Proof. vm_compute. reflexivity. Qed.

Lemma format_reduce value :
  format (from_template reduce_template) [(py "post", value)]
  = Returns (before_field reduce_template ++ value
             ++ after_field reduce_template).
Proof. vm_compute. reflexivity. Qed.

Lemma format_elaborate value :
  format (from_template elaborate_template) [(py "post", value)]
  = Returns (before_field elaborate_template ++ value
             ++ after_field elaborate_template).
Proof. vm_compute. reflexivity. Qed.

(** ** Running the views *)

Arguments format : simpl never.
Arguments py : simpl never.
Arguments is_ollama_available : simpl never.
Arguments invoke_template : simpl never.
Arguments generated : simpl never.

Ltac unfold_view :=
  unfold handle, dispatch, view_of, generate_post, regenerate_post,
    modify_post, generate_linkedin_post, regenerate_linkedin_post,
    modify_linkedin_post, get_json, py_in, py_getitem, py_slice50,
    object_request, mbind, view_bind, mret, view_ret, raise in *.

Lemma missing_from_object `{Process} fields m w :
  missing_from fields (JObj m) w
  = (Ok (filter (λ f, m !! f = None) fields), w).
Proof.
  induction fields as [|f fields IH]; [done|].
  simpl. unfold mbind, view_bind, mret, view_ret. rewrite IH.
  rewrite filter_cons. case_bool_decide as Hf; case_decide as Hn; simpl;
    try done.
  - rewrite Hn in Hf. by destruct Hf.
  - destruct Hn. by apply eq_None_not_Some.
Qed.

(** The probe makes at most one call, the one with [probe_prompt], and
    reports whether it returned. *)
Lemma is_ollama_available_run `{Process} w :
  (llm = None ∧ is_ollama_available w = (Ok false, w))
  ∨ (∃ service o s,
        llm = Some service
        ∧ service (backend w) probe_prompt = (o, s)
        ∧ is_ollama_available w
          = (Ok (returned o),
             {| backend := s; calls := calls w ++ [(probe_prompt, o)] |})).
Proof.
  unfold is_ollama_available, llm_invoke.
  destruct llm as [service|]; [right | by left].
  destruct (service (backend w) probe_prompt) as [o s] eqn:Hs.
  exists service, o, s. by destruct o.
Qed.

Lemma probe_calls `{Process} w b w1 :
  is_ollama_available w = (Ok b, w1) →
  (b = false ∧ w1 = w)
  ∨ (∃ o, calls w1 = calls w ++ [(probe_prompt, o)]
          ∧ b = returned o).
Proof.
  destruct (is_ollama_available_run w) as [[_ ->] | (f & o & s & _ & _ & ->)];
    intros [= <- <-]; [by left | right; by exists o].
Qed.

(** ** Requests that are rejected before the backend is reached *)

(** The parser has the last word on what counts as JSON.  A payload
    that holds NaN is not a JSON text; the parser delivers it all the
    same, and the request is served: status 200 after two calls. *)
Lemma nan_body_served :
  let b := {| json_text := false;
              parsed := Loaded (JObj (list_to_map
                          [(py "context", JStr (py "hello"));
                           (py "x", JNum (py "NaN"))])) |} in
  let out := run echo_process () GeneratePost (received true b) in
  json_text b = false
  ∧ status out.1 = 200
  ∧ status out.1 ≠ 400
  ∧ length (calls out.2) = 2%nat
  ∧ calls out.2 ≠ calls (@start echo_process ()).
Proof. by vm_compute. Qed.

(** C7, as the code has it.  A request whose mimetype is not a JSON one,
    or whose payload the parser rejects as malformed, is answered with
    status 400 on each of the three POST routes, and the world is left as
    it was: the backend is not called, neither for the probe nor for a
    generation. *)
Theorem non_json_rejected `{Process} (e : endpoint) (req : request) (w : world) :
  is_json req = false ∨ json_body req = Malformed →
  status (handle e req w).1 = 400 ∧ (handle e req w).2 = w.
Proof.
  intros Hreq. unfold_view.
  destruct e, (is_json req) eqn:Hj, (json_body req) eqn:Hb; simpl;
    destruct Hreq; done.
Qed.

Lemma non_json_rejected_witness :
  let req := {| is_json := false; json_body := Malformed |} in
  status (run echo_process () GeneratePost req).1 = 400
  ∧ (run echo_process () GeneratePost req).2 = @start echo_process ().
Proof.
  apply (non_json_rejected (H:=echo_process)). by left.
Defined.

(** The validation, where it works.  A payload that the parser delivers
    as an object lacking one or more of the fields the route asks for is
    answered with status 400 and a JSON error whose message contains the
    name of every missing field; the world is left as it was. *)
Theorem missing_fields_rejected `{Process}
    (e : endpoint) (m : gmap pystr json) (w : world) :
  (∃ f, f ∈ required_of e ∧ m !! f = None) →
  ∃ msg,
    handle e (object_request m) w = (respond (JsonError msg) 400, w)
    ∧ ∀ f, f ∈ required_of e → m !! f = None → contains msg f = true.
Proof.
  intros (f & Hf & Hnone).
  assert (∀ g, g ∈ [py "context"] → g = py "context") as Hone
    by (by intros g ->%list_elem_of_singleton).
  destruct e; simpl in Hf.
  - apply Hone in Hf as ->. unfold_view. simpl. rewrite Hnone. simpl.
    eexists. split; [done|]. by intros g ->%Hone _.
  - apply Hone in Hf as ->. unfold_view. simpl. rewrite Hnone. simpl.
    eexists. split; [done|]. by intros g ->%Hone _.
  - unfold_view. cbn [is_json json_body negb]. rewrite missing_from_object.
    assert (f ∈ filter (λ f, m !! f = None) required_fields) as Hin
      by (by apply list_elem_of_filter).
    destruct (filter _ required_fields) as [|g gs] eqn:Hmissing;
      [by apply elem_of_nil in Hin|].
    eexists. split; [done|]. intros f' Hf' Hnone'.
    apply contains_app_r, contains_join. rewrite <- Hmissing.
    by apply list_elem_of_filter.
Qed.

Lemma missing_fields_rejected_witness :
  ∃ msg,
    run echo_process () ModifyPost
      (json_request [(py "current_post", JStr (py "Big news"))])
    = (respond (JsonError msg) 400, @start echo_process ())
    ∧ ∀ f, f ∈ required_of ModifyPost →
           (list_to_map [(py "current_post", JStr (py "Big news"))]
              : gmap pystr json) !! f = None →
           contains msg f = true.
Proof.
  apply (missing_fields_rejected (H:=echo_process) ModifyPost).
  exists (py "action"). split; [|by vm_compute].
  unfold required_of, required_fields. set_solver.
Defined.

(** C6, where the code breaks it.  The body null is a JSON text and has
    none of the fields.  The views test [field not in data] on whatever
    the parser delivers; on [None] the test raises [TypeError], no view
    catches it, and the answer is Flask's error page with status 500: not
    400, and no missing field is named. *)
Theorem null_body_not_rejected (e : endpoint) :
  let b := {| json_text := true; parsed := Loaded JNull |} in
  let out := run echo_process () e (received true b) in
  json_text b = true
  ∧ out.1 = respond ErrorPage 500
  ∧ status out.1 ≠ 400
  ∧ out.2 = @start echo_process ().
Proof. by destruct e; vm_compute. Qed.

(** ** The availability gate *)

Lemma nothing_missing (m : gmap pystr json) (fields : list pystr) :
  (∀ f, f ∈ fields → is_Some (m !! f)) →
  filter (λ f, m !! f = None) fields = [].
Proof.
  intros Hall. induction fields as [|f fields IH]; [done|].
  rewrite filter_cons. case_decide as Hf.
  - destruct (Hall f) as [v Hv]; [left | congruence].
  - apply IH. intros g Hg. apply Hall. by right.
Qed.

(** A request with every required field gets as far as the probe, and
    no further when the probe says no. *)
Lemma gate_closed `{Process} e m w w1 :
  (∀ f, f ∈ required_of e → is_Some (m !! f)) →
  is_ollama_available w = (Ok false, w1) →
  handle e (object_request m) w = (unavailable, w1).
Proof.
  intros Hall Hprobe. destruct e.
  - destruct (Hall (py "context")) as [c Hc]; [left|].
    unfold_view. simpl. rewrite Hc. simpl. by rewrite Hprobe.
  - destruct (Hall (py "context")) as [c Hc]; [left|].
    unfold_view. simpl. rewrite Hc. simpl. by rewrite Hprobe.
  - unfold_view. cbn [is_json json_body negb].
    rewrite missing_from_object, nothing_missing by done.
    by rewrite Hprobe.
Qed.

(** C3. For a request that carries every field its route requires, on
    any of the three generation routes: when the availability probe
    reports the backend unavailable, the answer is status 500 with the
    backend-unavailable error, and the run ends in the world the probe
    left.  The only call the backend may have seen is the probe itself,
    which raised; no template was sent. *)
Theorem unavailable_backend_500 `{Process}
    (e : endpoint) (m : gmap pystr json) (w w1 : world) :
  (∀ f, f ∈ required_of e → is_Some (m !! f)) →
  is_ollama_available w = (Ok false, w1) →
  handle e (object_request m) w = (unavailable, w1)
  ∧ status unavailable = 500
  ∧ (calls w1 = calls w
     ∨ ∃ msg, calls w1 = calls w ++ [(probe_prompt, Raises msg)]).
Proof.
  intros Hall Hprobe. split; [by apply gate_closed|]. split; [done|].
  destruct (probe_calls _ _ _ Hprobe) as [[_ ->] | (o & Hcalls & Ho)];
    [by left | right].
  destruct o as [t|msg]; [done|]. by exists msg.
Qed.

Lemma unavailable_backend_500_witness :
  let m : gmap pystr json :=
    list_to_map [(py "context", JStr (py "We shipped v2"))] in
  let w1 :=
    @Build_world scripted_process []
      [(probe_prompt, Raises (py "connection refused"))] in
  run scripted_process [] GeneratePost (object_request m) = (unavailable, w1)
  ∧ status unavailable = 500
  ∧ (calls w1 = []
     ∨ ∃ msg, calls w1 = [] ++ [(probe_prompt, Raises msg)]).
Proof.
  apply (unavailable_backend_500 (H:=scripted_process) GeneratePost).
  - intros f ->%list_elem_of_singleton. vm_compute. eauto.
  - reflexivity.
Defined.

(** C10. When the model handle is [None], the probe answers unavailable
    without calling anything, and every request that carries the fields
    its route requires is answered with status 500 and the
    backend-unavailable error, the world untouched. *)
Theorem no_handle_500 `{Process}
    (e : endpoint) (m : gmap pystr json) (w : world) :
  llm = None →
  (∀ f, f ∈ required_of e → is_Some (m !! f)) →
  is_ollama_available w = (Ok false, w)
  ∧ handle e (object_request m) w = (unavailable, w)
  ∧ status unavailable = 500.
Proof.
  intros Hnone Hall.
  assert (is_ollama_available w = (Ok false, w)) as Hprobe
    by (unfold is_ollama_available; by rewrite Hnone).
  split; [done|]. split; [by apply gate_closed | done].
Qed.

Lemma no_handle_500_witness :
  let m : gmap pystr json :=
    list_to_map [(py "context", JStr (py "We shipped v2"));
                 (py "current_post", JStr (py "Big news"));
                 (py "action", JStr (py "reduce"))] in
  @is_ollama_available down_process (@start down_process ())
  = (Ok false, @start down_process ())
  ∧ run down_process () ModifyPost (object_request m)
    = (unavailable, @start down_process ())
  ∧ status unavailable = 500.
Proof.
  apply (no_handle_500 (H:=down_process) ModifyPost); [done|].
  intros f Hf. unfold required_of, required_fields in Hf.
  repeat (apply elem_of_cons in Hf as [-> | Hf]; [vm_compute; eauto|]).
  by apply elem_of_nil in Hf.
Defined.

(** ** [modify_post]: the action check and the unused context *)

(** [modify_post] reads its payload through three lookups only, and of
    the context it reads no more than whether it is there. *)
Lemma modify_post_lookups `{Process} (m1 m2 : gmap pystr json) w :
  (m1 !! py "context" = None ↔ m2 !! py "context" = None) →
  m1 !! py "current_post" = m2 !! py "current_post" →
  m1 !! py "action" = m2 !! py "action" →
  modify_post (object_request m1) w = modify_post (object_request m2) w.
Proof.
  intros Hctx Hpost Haction. unfold_view. cbn [is_json json_body negb].
  rewrite !missing_from_object.
  assert (filter (λ f, m1 !! f = None) required_fields
          = filter (λ f, m2 !! f = None) required_fields) as ->.
  { unfold required_fields. rewrite !filter_cons, !filter_nil.
    rewrite <- Hpost, <- Haction. repeat case_decide; intuition congruence. }
  by rewrite Hpost, Haction.
Qed.

(** C2. Two [modify_post] requests that differ only in the value stored
    under context, served from the same world (the same backend in the
    same state, the same history), give the same response and leave the
    same world, and so the same recorded prompts: the answer is a
    function of current_post and action. *)
Theorem context_value_unused `{Process}
    (m : gmap pystr json) (c1 c2 : json) (w : world) :
  handle ModifyPost (object_request (<[py "context" := c1]> m)) w
  = handle ModifyPost (object_request (<[py "context" := c2]> m)) w.
Proof.
  unfold handle, dispatch, view_of.
  rewrite (modify_post_lookups (<[py "context" := c1]> m)
             (<[py "context" := c2]> m)); [done | | |].
  - by rewrite !lookup_insert_eq.
  - by rewrite !lookup_insert_ne.
  - by rewrite !lookup_insert_ne.
Qed.

(** C1, as the code has it.  A [modify_post] request that carries the
    three fields and an action other than reduce and elaborate first
    runs the availability probe.  When the probe reports available the
    answer is status 400 with the invalid-action error, otherwise it is
    status 500 with the backend-unavailable error.  The run ends in the
    world the probe left: the backend saw at most the probe call and no
    template. *)
Theorem invalid_action_after_probe `{Process}
    (m : gmap pystr json) (a : json) (w : world) :
  is_Some (m !! py "context") →
  is_Some (m !! py "current_post") →
  m !! py "action" = Some a →
  json_eq_str a (py "reduce") = false →
  json_eq_str a (py "elaborate") = false →
  ∃ available w1,
    is_ollama_available w = (Ok available, w1)
    ∧ handle ModifyPost (object_request m) w
      = (if available then invalid_action else unavailable, w1)
    ∧ status invalid_action = 400 ∧ status unavailable = 500
    ∧ (calls w1 = calls w
       ∨ ∃ o, calls w1 = calls w ++ [(probe_prompt, o)]).
Proof.
  intros Hctx Hpost Haction Hreduce Helaborate.
  assert (∀ f, f ∈ required_of ModifyPost → is_Some (m !! f)) as Hall.
  { intros f Hf. unfold required_of, required_fields in Hf.
    repeat (apply elem_of_cons in Hf as [-> | Hf]; [by eauto|]).
    by apply elem_of_nil in Hf. }
  destruct (is_ollama_available w) as [[available|e] w1] eqn:Hprobe.
  2: { destruct (is_ollama_available_run w)
         as [[_ Hr] | (? & ? & ? & _ & _ & Hr)]; congruence. }
  exists available, w1. split; [done|]. split.
  - destruct available; [|by apply gate_closed].
    unfold_view. cbn [is_json json_body negb].
    rewrite missing_from_object, nothing_missing by done.
    rewrite Hprobe. simpl. rewrite Haction. simpl.
    by rewrite Hreduce, Helaborate.
  - split; [done|]. split; [done|].
    destruct (probe_calls _ _ _ Hprobe) as [[_ ->] | (o & Hcalls & _)];
      [by left | right; by exists o].
Qed.

(** ** The shape of every run *)

(** Stepping [dispatch] through a view. *)
Lemma dispatch_ret `{Process} (r : response) w : dispatch (mret r) w = (r, w).
Proof. done. Qed.

Lemma dispatch_bind `{Process} {A} (c : View A) (k : A → View response)
    w a w1 :
  c w = (Ok a, w1) → dispatch (c ≫= k) w = dispatch (k a) w1.
Proof. intros Hc. unfold dispatch, mbind, view_bind. by rewrite Hc. Qed.

Lemma dispatch_raise `{Process} {A} (c : View A) (k : A → View response)
    w x w1 :
  c w = (Raise x, w1) →
  dispatch (c ≫= k) w
  = (respond ErrorPage (if x is BadRequest then 400 else 500), w1).
Proof.
  intros Hc. unfold dispatch, mbind, view_bind. rewrite Hc. by destruct x.
Qed.

(** Reading the payload does not touch the world. *)
Lemma py_in_pure `{Process} key data w : ∃ res, py_in key data w = (res, w).
Proof. destruct data; simpl; eauto. Qed.

Lemma py_getitem_pure `{Process} data key w :
  ∃ res, py_getitem data key w = (res, w).
Proof.
  destruct data as [| | | | |m]; simpl; eauto. destruct (m !! key); eauto.
Qed.

Lemma py_slice50_pure `{Process} v w : ∃ res, py_slice50 v w = (res, w).
Proof. destruct v; simpl; eauto. Qed.

Lemma missing_from_pure `{Process} fields data w :
  ∃ res, missing_from fields data w = (res, w).
Proof.
  induction fields as [|f fields [res IH]]; simpl; [eauto|].
  unfold mbind, view_bind.
  destruct (py_in_pure f data w) as [[present|x] ->]; [|eauto].
  rewrite IH. destruct res; eauto.
Qed.

(** A generation helper makes at most one call and hands back
    [generated e o] for its outcome [o]; without a call it hands back an
    error text. *)
Lemma invoke_template_outcome `{Process} e prompt name value w :
  (∃ msg, invoke_template prompt name value (error_label e) w
          = (Ok (generated e (Raises msg)), w))
  ∨ (∃ p o w2, invoke_template prompt name value (error_label e) w
               = (Ok (generated e o), w2)
               ∧ calls w2 = calls w ++ [(p, o)]).
Proof.
  unfold invoke_template, llm_invoke.
  destruct llm as [service|]; [|left; eauto].
  destruct (format _ _) as [text|msg]; [|left; eauto].
  destruct (service _ _) as [o s]. right.
  exists text, o, {| backend := s; calls := calls w ++ [(text, o)] |}.
  split; [by destruct o | done].
Qed.

Lemma error_text_500 e msg : status (reply (generated e (Raises msg))) ≠ 200.
Proof. by destruct e. Qed.

(** The part of a view after the availability gate: it answers without
    a call and without success, or after one call with [reply]. *)
Lemma finish_shape `{Process} e (helper : View pystr) w r w' :
  ((∃ msg, helper w = (Ok (generated e (Raises msg)), w))
   ∨ (∃ p o w2, helper w = (Ok (generated e o), w2)
                ∧ calls w2 = calls w ++ [(p, o)])) →
  dispatch (text ← helper; mret (reply text)) w = (r, w') →
  (w' = w ∧ status r ≠ 200)
  ∨ (∃ p o, calls w' = calls w ++ [(p, o)] ∧ r = reply (generated e o)).
Proof.
  intros [(msg & Hh) | (p & o & w2 & Hh & Hcalls)];
    rewrite (dispatch_bind _ _ _ _ _ Hh), dispatch_ret; intros [= <- <-].
  - left. split; [done | apply error_text_500].
  - right. eauto.
Qed.

Lemma gate_shape `{Process} e (tail : View response) w r w' :
  (∀ w1 r1 w2, dispatch tail w1 = (r1, w2) →
     (w2 = w1 ∧ status r1 ≠ 200)
     ∨ (∃ p o, calls w2 = calls w1 ++ [(p, o)] ∧ r1 = reply (generated e o))) →
  dispatch (available ← is_ollama_available;
            if negb available then mret unavailable else tail) w = (r, w') →
  ∃ new, calls w' = calls w ++ new ∧ run_shape e r new.
Proof.
  intros Htail.
  destruct (is_ollama_available_run w)
    as [[_ Hp] | (service & o & s & _ & _ & Hp)];
    rewrite (dispatch_bind _ _ _ _ _ Hp); simpl.
  - rewrite dispatch_ret. intros [= <- <-].
    exists []. split; [by rewrite app_nil_r | by constructor].
  - destruct o as [greeting|msg]; simpl.
    + intros [[-> Hr] | (p & o & Hcalls & ->)]%Htail.
      * eexists [_]. split; [done | by constructor].
      * eexists [_; _]. split; [|by constructor].
        rewrite Hcalls. simpl. by rewrite <- app_assoc.
    + rewrite dispatch_ret. intros [= <- <-].
      eexists [_]. split; [done | by constructor].
Qed.

(** After the gate, [generate_post] and [regenerate_post] read the
    context, cut it for the log and call their helper. *)
Lemma context_tail_shape `{Process} e (helper : json → View pystr) data
    w r w' :
  (∀ v w1,
     (∃ msg, helper v w1 = (Ok (generated e (Raises msg)), w1))
     ∨ (∃ p o w2, helper v w1 = (Ok (generated e o), w2)
                  ∧ calls w2 = calls w1 ++ [(p, o)])) →
  dispatch (context ← py_getitem data (py "context");
            _ ← py_slice50 context;
            generated_text ← helper context;
            mret (reply generated_text)) w = (r, w') →
  (w' = w ∧ status r ≠ 200)
  ∨ (∃ p o, calls w' = calls w ++ [(p, o)] ∧ r = reply (generated e o)).
Proof.
  intros Hhelper.
  destruct (py_getitem_pure data (py "context") w) as [[context|x] Hg].
  2: { rewrite (dispatch_raise _ _ _ _ _ Hg). intros [= <- <-].
       left. by destruct x. }
  rewrite (dispatch_bind _ _ _ _ _ Hg).
  destruct (py_slice50_pure context w) as [[cut|x] Hs].
  2: { rewrite (dispatch_raise _ _ _ _ _ Hs). intros [= <- <-].
       left. by destruct x. }
  rewrite (dispatch_bind _ _ _ _ _ Hs).
  apply finish_shape, Hhelper.
Qed.

Lemma modify_linkedin_post_outcome `{Process} post action w :
  json_eq_str action (py "reduce") || json_eq_str action (py "elaborate")
  = true →
  (∃ msg, modify_linkedin_post post action w
          = (Ok (generated ModifyPost (Raises msg)), w))
  ∨ (∃ p o w2, modify_linkedin_post post action w
               = (Ok (generated ModifyPost o), w2)
               ∧ calls w2 = calls w ++ [(p, o)]).
Proof.
  unfold modify_linkedin_post. intros Haction.
  destruct (json_eq_str action (py "reduce"));
    [apply (invoke_template_outcome ModifyPost)|].
  destruct (json_eq_str action (py "elaborate")); [|done].
  apply (invoke_template_outcome ModifyPost).
Qed.

Lemma modify_tail_shape `{Process} data w r w' :
  dispatch (_ ← py_getitem data (py "action");
            action ← py_getitem data (py "action");
            if negb (json_eq_str action (py "reduce")
                     || json_eq_str action (py "elaborate"))
            then mret invalid_action
            else
              current_post ← py_getitem data (py "current_post");
              action ← py_getitem data (py "action");
              modified_text ← modify_linkedin_post current_post action;
              mret (reply modified_text)) w = (r, w') →
  (w' = w ∧ status r ≠ 200)
  ∨ (∃ p o, calls w' = calls w ++ [(p, o)]
            ∧ r = reply (generated ModifyPost o)).
Proof.
  destruct (py_getitem_pure data (py "action") w) as [[action|x] Ha].
  2: { rewrite (dispatch_raise _ _ _ _ _ Ha). intros [= <- <-].
       left. by destruct x. }
  rewrite !(dispatch_bind _ _ _ _ _ Ha).
  destruct (json_eq_str action (py "reduce")
            || json_eq_str action (py "elaborate")) eqn:Hvalid; simpl.
  2: { rewrite dispatch_ret. intros [= <- <-]. by left. }
  destruct (py_getitem_pure data (py "current_post") w) as [[post|x] Hp].
  2: { rewrite (dispatch_raise _ _ _ _ _ Hp). intros [= <- <-].
       left. by destruct x. }
  rewrite (dispatch_bind _ _ _ _ _ Hp), (dispatch_bind _ _ _ _ _ Ha).
  by apply finish_shape, modify_linkedin_post_outcome.
Qed.

(** Every run of a POST route has one of the three shapes. *)
Lemma handle_shape `{Process} e req w r w' :
  handle e req w = (r, w') →
  ∃ new, calls w' = calls w ++ new ∧ run_shape e r new.
Proof.
  assert (∀ r0 : response, status r0 ≠ 200 →
            (r0, w) = (r, w') →
            ∃ new, calls w' = calls w ++ new ∧ run_shape e r new) as Hstop.
  { intros r0 Hr0 [= <- <-]. exists [].
    split; [by rewrite app_nil_r | by constructor]. }
  unfold handle.
  destruct (is_json req) eqn:Hjson.
  2: { destruct e; simpl; unfold generate_post, regenerate_post, modify_post;
         rewrite Hjson; simpl; rewrite dispatch_ret; by apply Hstop. }
  assert (∀ k, json_body req = Malformed →
            dispatch (get_json req ≫= k) w = (respond ErrorPage 400, w))
    as Hbad.
  { intros k Hb. unfold get_json. rewrite Hb.
    by rewrite (dispatch_raise _ _ w BadRequest w). }
  assert (∀ k, json_body req = Exhausted →
            dispatch (get_json req ≫= k) w = (respond ErrorPage 500, w))
    as Hdeep.
  { intros k Hb. unfold get_json. rewrite Hb.
    by rewrite (dispatch_raise _ _ w RecursionError w). }
  assert (∀ k data, json_body req = Loaded data →
            dispatch (get_json req ≫= k) w = dispatch (k data) w) as Hgood.
  { intros k data Hb. unfold get_json. rewrite Hb.
    by rewrite (dispatch_bind _ _ w data w). }
  destruct (json_body req) as [data| |] eqn:Hbody.
  2: { destruct e; simpl; unfold generate_post, regenerate_post, modify_post;
         rewrite Hjson; simpl; rewrite Hbad by done; by apply Hstop. }
  2: { destruct e; simpl; unfold generate_post, regenerate_post, modify_post;
         rewrite Hjson; simpl; rewrite Hdeep by done; by apply Hstop. }
  destruct e; simpl; unfold generate_post, regenerate_post, modify_post;
    rewrite Hjson; simpl; rewrite (Hgood _ data) by done.
  - destruct (py_in_pure (py "context") data w) as [[present|x] Hin].
    2: { rewrite (dispatch_raise _ _ _ _ _ Hin). apply Hstop. by destruct x. }
    rewrite (dispatch_bind _ _ _ _ _ Hin).
    destruct present; simpl; [|rewrite dispatch_ret; by apply Hstop].
    apply gate_shape. intros w1 r1 w2.
    apply context_tail_shape. intros v w3.
    apply (invoke_template_outcome GeneratePost).
  - destruct (py_in_pure (py "context") data w) as [[present|x] Hin].
    2: { rewrite (dispatch_raise _ _ _ _ _ Hin). apply Hstop. by destruct x. }
    rewrite (dispatch_bind _ _ _ _ _ Hin).
    destruct present; simpl; [|rewrite dispatch_ret; by apply Hstop].
    apply gate_shape. intros w1 r1 w2.
    apply context_tail_shape. intros v w3.
    apply (invoke_template_outcome RegeneratePost).
  - destruct (missing_from_pure required_fields data w)
      as [[missing|x] Hmissing].
    2: { rewrite (dispatch_raise _ _ _ _ _ Hmissing). apply Hstop.
         by destruct x. }
    rewrite (dispatch_bind _ _ _ _ _ Hmissing).
    destruct missing; [|rewrite dispatch_ret; by apply Hstop].
    apply gate_shape. intros w1 r1 w2. apply modify_tail_shape.
Qed.

(** ** What the generation call decides *)

Lemma reply_error e msg :
  reply (generated e (Raises msg))
  = respond (JsonError (error_label e ++ msg)) 500.
Proof. by destruct e. Qed.

(** A run whose trace grew by two calls ended with [reply] on what the
    second call brought. *)
Lemma second_call `{Process} e req w r w' c p o :
  handle e req w = (r, w') →
  calls w' = calls w ++ [c; (p, o)] →
  r = reply (generated e o).
Proof.
  intros (new & Hnew & Hshape)%handle_shape Hcalls.
  rewrite Hnew in Hcalls. apply app_inv_head in Hcalls as ->.
  by inversion Hshape.
Qed.

(** C4. On each generation route: when the second call of a run -- the
    call that sends the template, the first being the probe -- raises
    with message [msg], the answer is status 500 with a JSON error whose
    text is the route's label followed by [msg], so it contains [msg]. *)
Theorem generation_error_500 `{Process}
    (e : endpoint) (req : request) (w w' : world) (r : response)
    (c : pystr * outcome) (p msg : pystr) :
  handle e req w = (r, w') →
  calls w' = calls w ++ [c; (p, Raises msg)] →
  status r = 500
  ∧ payload r = JsonError (error_label e ++ msg)
  ∧ contains (error_label e ++ msg) msg = true.
Proof.
  intros Hrun Hcalls. rewrite (second_call _ _ _ _ _ _ _ _ Hrun Hcalls).
  rewrite reply_error. split; [done|]. split; [done|].
  apply contains_suffix.
Qed.

Lemma generation_error_500_witness :
  let req := json_request [(py "context", JStr (py "We shipped v2"))] in
  let script := [Returns (py "Hello"); Raises (py "model not found")] in
  let out := run scripted_process script GeneratePost req in
  status out.1 = 500
  ∧ payload out.1
    = JsonError (error_label GeneratePost ++ py "model not found")
  ∧ contains (error_label GeneratePost ++ py "model not found")
      (py "model not found") = true.
Proof.
  intros req script out.
  eapply (generation_error_500 (H:=scripted_process) GeneratePost req
            (@start scripted_process script) out.2 out.1).
  - symmetry. apply surjective_pairing.
  - vm_compute. reflexivity.
Defined.

(** C5. Success and failure are told apart by the first five characters
    of the generated text.  When the template call returns -- nothing
    was raised -- a text that starts with Error, the answer is
    nevertheless status 500, with that text as the error. *)
Theorem error_prefix_misclassified `{Process}
    (e : endpoint) (req : request) (w w' : world) (r : response)
    (c : pystr * outcome) (p text : pystr) :
  handle e req w = (r, w') →
  calls w' = calls w ++ [c; (p, Returns text)] →
  startswith text (py "Error") = true →
  status r = 500 ∧ payload r = JsonError text.
Proof.
  intros Hrun Hcalls Hprefix.
  rewrite (second_call _ _ _ _ _ _ _ _ Hrun Hcalls).
  unfold reply, generated. by rewrite Hprefix.
Qed.

Lemma error_prefix_misclassified_witness :
  let req := json_request [(py "context", JStr (py "HTTP status codes"))] in
  let text := py "Error 404 is everyone's favourite status code." in
  let out := run scripted_process [Returns (py "Hello"); Returns text]
               GeneratePost req in
  status out.1 = 500 ∧ payload out.1 = JsonError text.
Proof.
  intros req text out.
  eapply (error_prefix_misclassified (H:=scripted_process) GeneratePost req
            (@start scripted_process [Returns (py "Hello"); Returns text])
            out.2 out.1).
  - symmetry. apply surjective_pairing.
  - vm_compute. reflexivity.
  - reflexivity.
Defined.

(** ** An echoing backend *)

(** With a backend that returns its prompt, [generate_post] sends the
    probe, then the generate template with the caller's context in the
    place of its field, and answers with what came back, stripped. *)
Lemma echo_generate_post (context : pystr) :
  run echo_process () GeneratePost
    (json_request [(py "context", JStr context)])
  = (respond
       (JsonPost (lstrip (before_field generate_template) ++ context
                  ++ rstrip (after_field generate_template))) 200,
     @Build_world echo_process ()
       [(probe_prompt, Returns probe_prompt);
        (filled generate_template context,
         Returns (filled generate_template context))]).
Proof.
  set (w1 := @Build_world echo_process ()
               [(probe_prompt, Returns probe_prompt)]).
  set (prompt := filled generate_template context).
  set (w2 := @Build_world echo_process ()
               [(probe_prompt, Returns probe_prompt);
                (prompt, Returns prompt)]).
  assert (@generate_linkedin_post echo_process (JStr context) w1
          = (Ok prompt, w2)) as Hgen.
  { unfold generate_linkedin_post, invoke_template.
    cbn [py_str]. by rewrite format_generate. }
  unfold run, handle. cbn [view_of]. unfold generate_post.
  cbn [json_request object_request is_json negb].
  do 2 (erewrite (dispatch_bind (H:=echo_process)); [|reflexivity]).
  change (negb (bool_decide _)) with false. cbv iota.
  erewrite (dispatch_bind (H:=echo_process) _ _ _ true w1); [|reflexivity].
  cbn [negb].
  do 2 (erewrite (dispatch_bind (H:=echo_process)); [|reflexivity]).
  erewrite (dispatch_bind (H:=echo_process)); [|exact Hgen].
  rewrite dispatch_ret. unfold reply.
  change (startswith prompt (py "Error")) with false. cbv iota.
  unfold prompt, filled. by rewrite strip_app.
Qed.

(** C9. With a backend that echoes its prompt, [generate_post] on the
    object whose context is hello sends two calls, the probe and then the
    generate template with hello in the place of its field, and answers
    with status 200 and that prompt, stripped, as the post; the post
    contains hello.  The same holds for every context text: the template
    carries the caller's context verbatim. *)
Theorem echo_generate_hello :
  (∀ context : pystr,
     run echo_process () GeneratePost
       (json_request [(py "context", JStr context)])
     = (respond
          (JsonPost (lstrip (before_field generate_template) ++ context
                     ++ rstrip (after_field generate_template))) 200,
        @Build_world echo_process ()
          [(probe_prompt, Returns probe_prompt);
           (filled generate_template context,
            Returns (filled generate_template context))]))
  ∧ let prompt := py "
You are a professional LinkedIn post generator. Create an engaging and professional post based on the following context.
The post should follow LinkedIn best practices, include relevant hashtags, and be appropriately formatted.

USER CONTEXT:
hello

LINKEDIN POST:
" in
    let post := py "You are a professional LinkedIn post generator. Create an engaging and professional post based on the following context.
The post should follow LinkedIn best practices, include relevant hashtags, and be appropriately formatted.

USER CONTEXT:
hello

LINKEDIN POST:" in
    run echo_process () GeneratePost
      (json_request [(py "context", JStr (py "hello"))])
    = (respond (JsonPost post) 200,
       @Build_world echo_process ()
         [(probe_prompt, Returns probe_prompt); (prompt, Returns prompt)])
    ∧ contains post (py "hello") = true.
Proof.
  split; [apply echo_generate_post|].
  intros prompt post. split; [|by vm_compute].
  rewrite echo_generate_post. by vm_compute.
Qed.

(** ** [modify_post] with an action it does not know, on concrete runs *)

Lemma invalid_action_after_probe_witness :
  let m : gmap pystr json :=
    list_to_map [(py "context", JStr (py "We shipped v2"));
                 (py "current_post", JStr (py "Big news"));
                 (py "action", JStr (py "shrink"))] in
  ∃ available w1,
    @is_ollama_available echo_process (@start echo_process ())
    = (Ok available, w1)
    ∧ run echo_process () ModifyPost (object_request m)
      = (if available then invalid_action else unavailable, w1)
    ∧ status invalid_action = 400 ∧ status unavailable = 500
    ∧ (calls w1 = []
       ∨ ∃ o, calls w1 = [] ++ [(probe_prompt, o)]).
Proof.
  intros m.
  apply (invalid_action_after_probe (H:=echo_process) m
           (JStr (py "shrink")) (@start echo_process ()));
    [vm_compute; eauto | vm_compute; eauto | reflexivity..].
Defined.

(** The same request when the backend is down: the probe is sent, it
    raises, and the answer is status 500, not 400. *)
Lemma invalid_action_backend_down :
  let req := json_request [(py "context", JStr (py "We shipped v2"));
                           (py "current_post", JStr (py "Big news"));
                           (py "action", JStr (py "shrink"))] in
  let out := run scripted_process [] ModifyPost req in
  out.1 = unavailable
  ∧ status out.1 ≠ 400
  ∧ calls out.2 = [(probe_prompt, Raises (py "connection refused"))]
  ∧ calls out.2 ≠ calls (@start scripted_process []).
Proof. by vm_compute. Qed.

(** The same request when the backend is up: the answer is status 400,
    after the probe was sent. *)
Lemma invalid_action_backend_up :
  let req := json_request [(py "context", JStr (py "We shipped v2"));
                           (py "current_post", JStr (py "Big news"));
                           (py "action", JStr (py "shrink"))] in
  let out := run echo_process () ModifyPost req in
  out.1 = invalid_action
  ∧ calls out.2 = [(probe_prompt, Returns probe_prompt)].
Proof. by vm_compute. Qed.

(** A backend that raises on every call is stopped at the gate: the
    answer is the backend-unavailable error, which does not carry the
    message the backend raised with. *)
Lemma always_raising_backend :
  let req := json_request [(py "context", JStr (py "We shipped v2"))] in
  let out := run scripted_process [] GeneratePost req in
  out.1 = unavailable
  ∧ contains (py "Ollama service is not available")
      (py "connection refused") = false.
Proof. by vm_compute. Qed.

(** * Further properties of the routes *)

(** ** Every way a run can go *)

(** What reading the payload can raise. *)
Lemma py_in_cases `{Process} key data w :
  (∃ present, py_in key data w = (Ok present, w))
  ∨ py_in key data w = (Raise TypeError, w).
Proof. destruct data; simpl; eauto. Qed.

Lemma py_getitem_cases `{Process} data key w :
  (∃ v, py_getitem data key w = (Ok v, w))
  ∨ (∃ x, py_getitem data key w = (Raise x, w) ∧ x ≠ BadRequest).
Proof.
  destruct data as [| | | | |m]; simpl; try (right; by exists TypeError).
  destruct (m !! key); [left; eauto | right; by exists KeyError].
Qed.

Lemma py_slice50_cases `{Process} v w :
  (∃ cut, py_slice50 v w = (Ok cut, w))
  ∨ (∃ x, py_slice50 v w = (Raise x, w) ∧ x ≠ BadRequest).
Proof.
  destruct v; simpl; eauto; right;
    (by exists TypeError) || (by exists KeyError).
Qed.

Lemma missing_from_cases `{Process} fields data w :
  (∃ missing, missing_from fields data w = (Ok missing, w))
  ∨ missing_from fields data w = (Raise TypeError, w).
Proof.
  induction fields as [|f fields IH]; simpl; [left; eauto|].
  unfold mbind, view_bind.
  destruct (py_in_cases f data w) as [[present ->] | ->]; [|by right].
  destruct IH as [[missing ->] | ->]; [left; eauto | by right].
Qed.

Lemma dispatch_crash `{Process} {A} (c : View A) (k : A → View response)
    w x w1 :
  c w = (Raise x, w1) → x ≠ BadRequest →
  dispatch (c ≫= k) w = (respond ErrorPage 500, w1).
Proof. intros Hc Hx. rewrite (dispatch_raise _ _ _ _ _ Hc). by destruct x. Qed.

(** After the gate a view stops without a call, or makes one call and
    answers with [reply]. *)
Lemma finish_cases `{Process} e (helper : View pystr) w r w' :
  ((∃ msg, helper w = (Ok (generated e (Raises msg)), w))
   ∨ (∃ p o w2, helper w = (Ok (generated e o), w2)
                ∧ calls w2 = calls w ++ [(p, o)])) →
  dispatch (text ← helper; mret (reply text)) w = (r, w') →
  (w' = w ∧ (r = respond ErrorPage 500
             ∨ (e = ModifyPost ∧ r = invalid_action)
             ∨ ∃ msg, r = reply (generated e (Raises msg))))
  ∨ (∃ p o, calls w' = calls w ++ [(p, o)] ∧ r = reply (generated e o)).
Proof.
  intros [(msg & Hh) | (p & o & w2 & Hh & Hcalls)];
    rewrite (dispatch_bind _ _ _ _ _ Hh), dispatch_ret; intros [= <- <-].
  - left. split; [done|]. right. right. eauto.
  - right. eauto.
Qed.

Lemma context_tail_cases `{Process} e (helper : json → View pystr) data
    w r w' :
  (∀ v w1,
     (∃ msg, helper v w1 = (Ok (generated e (Raises msg)), w1))
     ∨ (∃ p o w2, helper v w1 = (Ok (generated e o), w2)
                  ∧ calls w2 = calls w1 ++ [(p, o)])) →
  dispatch (context ← py_getitem data (py "context");
            _ ← py_slice50 context;
            generated_text ← helper context;
            mret (reply generated_text)) w = (r, w') →
  (w' = w ∧ (r = respond ErrorPage 500
             ∨ (e = ModifyPost ∧ r = invalid_action)
             ∨ ∃ msg, r = reply (generated e (Raises msg))))
  ∨ (∃ p o, calls w' = calls w ++ [(p, o)] ∧ r = reply (generated e o)).
Proof.
  intros Hhelper.
  destruct (py_getitem_cases data (py "context") w)
    as [[context Hg] | (x & Hg & Hx)].
  2: { rewrite (dispatch_crash _ _ _ _ _ Hg Hx). intros [= <- <-].
       left. eauto. }
  rewrite (dispatch_bind _ _ _ _ _ Hg).
  destruct (py_slice50_cases context w) as [[cut Hs] | (x & Hs & Hx)].
  2: { rewrite (dispatch_crash _ _ _ _ _ Hs Hx). intros [= <- <-].
       left. eauto. }
  rewrite (dispatch_bind _ _ _ _ _ Hs).
  apply finish_cases, Hhelper.
Qed.

Lemma modify_tail_cases `{Process} data w r w' :
  dispatch (_ ← py_getitem data (py "action");
            action ← py_getitem data (py "action");
            if negb (json_eq_str action (py "reduce")
                     || json_eq_str action (py "elaborate"))
            then mret invalid_action
            else
              current_post ← py_getitem data (py "current_post");
              action ← py_getitem data (py "action");
              modified_text ← modify_linkedin_post current_post action;
              mret (reply modified_text)) w = (r, w') →
  (w' = w ∧ (r = respond ErrorPage 500
             ∨ (ModifyPost = ModifyPost ∧ r = invalid_action)
             ∨ ∃ msg, r = reply (generated ModifyPost (Raises msg))))
  ∨ (∃ p o, calls w' = calls w ++ [(p, o)]
            ∧ r = reply (generated ModifyPost o)).
Proof.
  destruct (py_getitem_cases data (py "action") w)
    as [[action Ha] | (x & Ha & Hx)].
  2: { rewrite (dispatch_crash _ _ _ _ _ Ha Hx). intros [= <- <-].
       left. eauto. }
  rewrite !(dispatch_bind _ _ _ _ _ Ha).
  destruct (json_eq_str action (py "reduce")
            || json_eq_str action (py "elaborate")) eqn:Hvalid; simpl.
  2: { rewrite dispatch_ret. intros [= <- <-]. left. eauto. }
  destruct (py_getitem_cases data (py "current_post") w)
    as [[post Hp] | (x & Hp & Hx)].
  2: { rewrite (dispatch_crash _ _ _ _ _ Hp Hx). intros [= <- <-].
       left. eauto. }
  rewrite (dispatch_bind _ _ _ _ _ Hp), (dispatch_bind _ _ _ _ _ Ha).
  by apply finish_cases, modify_linkedin_post_outcome.
Qed.

Lemma gate_cases `{Process} e (tail : View response) w r w' :
  (∀ w1 r1 w2, dispatch tail w1 = (r1, w2) →
     (w2 = w1 ∧ (r1 = respond ErrorPage 500
                 ∨ (e = ModifyPost ∧ r1 = invalid_action)
                 ∨ ∃ msg, r1 = reply (generated e (Raises msg))))
     ∨ (∃ p o, calls w2 = calls w1 ++ [(p, o)] ∧ r1 = reply (generated e o))) →
  dispatch (available ← is_ollama_available;
            if negb available then mret unavailable else tail) w = (r, w') →
  run_case e w r w'.
Proof.
  intros Htail.
  destruct (is_ollama_available_run w)
    as [[Hnone Hp] | (service & o & s & _ & _ & Hp)];
    rewrite (dispatch_bind _ _ _ _ _ Hp); simpl.
  - rewrite dispatch_ret. intros [= <- <-]. by constructor.
  - destruct o as [greeting|msg]; simpl.
    + intros [[-> Hr] | (p & o & Hcalls & ->)]%Htail.
      * destruct Hr as [-> | [[-> ->] | [msg ->]]].
        -- by eapply crashed_probed.
        -- by eapply action_refused.
        -- by eapply not_sent.
      * eapply answered. rewrite Hcalls. simpl. by rewrite <- app_assoc.
    + rewrite dispatch_ret. intros [= <- <-]. by eapply probe_raised.
Qed.

Lemma handle_cases `{Process} e req w r w' :
  handle e req w = (r, w') → run_case e w r w'.
Proof.
  unfold handle.
  destruct (is_json req) eqn:Hjson.
  2: { destruct e; simpl; unfold generate_post, regenerate_post, modify_post;
         rewrite Hjson; simpl; rewrite dispatch_ret; intros [= <- <-];
         by constructor. }
  assert (∀ k, json_body req = Malformed →
            dispatch (get_json req ≫= k) w = (respond ErrorPage 400, w))
    as Hbad.
  { intros k Hb. unfold get_json. rewrite Hb.
    by rewrite (dispatch_raise _ _ w BadRequest w). }
  assert (∀ k, json_body req = Exhausted →
            dispatch (get_json req ≫= k) w = (respond ErrorPage 500, w))
    as Hdeep.
  { intros k Hb. unfold get_json. rewrite Hb.
    by rewrite (dispatch_raise _ _ w RecursionError w). }
  assert (∀ k data, json_body req = Loaded data →
            dispatch (get_json req ≫= k) w = dispatch (k data) w) as Hgood.
  { intros k data Hb. unfold get_json. rewrite Hb.
    by rewrite (dispatch_bind _ _ w data w). }
  destruct (json_body req) as [data| |] eqn:Hbody.
  2: { destruct e; simpl; unfold generate_post, regenerate_post, modify_post;
         rewrite Hjson; simpl; rewrite Hbad by done; intros [= <- <-];
         by constructor. }
  2: { destruct e; simpl; unfold generate_post, regenerate_post, modify_post;
         rewrite Hjson; simpl; rewrite Hdeep by done; intros [= <- <-];
         apply crashed_unprobed. }
  destruct e; simpl; unfold generate_post, regenerate_post, modify_post;
    rewrite Hjson; simpl; rewrite (Hgood _ data) by done.
  - destruct (py_in_cases (py "context") data w) as [[present Hin] | Hin].
    2: { rewrite (dispatch_crash _ _ _ _ _ Hin) by done.
         intros [= <- <-]. apply crashed_unprobed. }
    rewrite (dispatch_bind _ _ _ _ _ Hin).
    destruct present; simpl;
      [|rewrite dispatch_ret; intros [= <- <-]; by constructor].
    apply gate_cases. intros w1 r1 w2.
    apply context_tail_cases. intros v w3.
    apply (invoke_template_outcome GeneratePost).
  - destruct (py_in_cases (py "context") data w) as [[present Hin] | Hin].
    2: { rewrite (dispatch_crash _ _ _ _ _ Hin) by done.
         intros [= <- <-]. apply crashed_unprobed. }
    rewrite (dispatch_bind _ _ _ _ _ Hin).
    destruct present; simpl;
      [|rewrite dispatch_ret; intros [= <- <-]; by constructor].
    apply gate_cases. intros w1 r1 w2.
    apply context_tail_cases. intros v w3.
    apply (invoke_template_outcome RegeneratePost).
  - destruct (missing_from_cases required_fields data w)
      as [[missing Hmissing] | Hmissing].
    2: { rewrite (dispatch_crash _ _ _ _ _ Hmissing) by done.
         intros [= <- <-]. apply crashed_unprobed. }
    rewrite (dispatch_bind _ _ _ _ _ Hmissing).
    destruct missing;
      [|rewrite dispatch_ret; intros [= <- <-]; by constructor].
    apply gate_cases. intros w1 r1 w2. apply modify_tail_cases.
Qed.

(** ** What a client can rely on *)

Lemma reply_well_formed text :
  (status (reply text) = 200 ∧ is_post (payload (reply text)) = true)
  ∨ (status (reply text) = 500 ∧ is_post (payload (reply text)) = false).
Proof. unfold reply. destruct (startswith text (py "Error")); eauto. Qed.

(** X1. Status and payload agree on every answer of the three POST
    routes: either the status is 200 and the payload is a post, or the
    status is 400 or 500 and the payload is an error. *)
Theorem response_well_formed `{Process}
    (e : endpoint) (req : request) (w : world) :
  let r := (handle e req w).1 in
  (status r = 200 ∧ is_post (payload r) = true)
  ∨ ((status r = 400 ∨ status r = 500) ∧ is_post (payload r) = false).
Proof.
  destruct (handle e req w) as [r w'] eqn:Hrun. simpl.
  apply handle_cases in Hrun.
  destruct Hrun as [r H4 Hp | | | | | | |];
    try (right; split; [eauto | done]).
  - destruct (reply_well_formed (generated e (Raises msg)))
      as [[? ?] | [? ?]]; eauto.
  - destruct (reply_well_formed (generated e o)) as [[? ?] | [? ?]]; eauto.
Qed.

(** X2. One request costs the backend at most two calls.  The first
    call, when there is one, carries the probe prompt.  An answer with
    status 200 comes only after two calls that both returned. *)
Theorem backend_calls_bounded `{Process}
    (e : endpoint) (req : request) (w w' : world) (r : response) :
  handle e req w = (r, w') →
  ∃ new,
    calls w' = calls w ++ new
    ∧ (length new ≤ 2)%nat
    ∧ (∀ c, head new = Some c → c.1 = probe_prompt)
    ∧ (status r = 200 →
       ∃ greeting prompt text,
         new = [(probe_prompt, Returns greeting); (prompt, Returns text)]).
Proof.
  intros Hrun%handle_cases.
  destruct Hrun as [r H4 Hp | | | | | | |].
  1-3: exists []; rewrite app_nil_r; repeat split;
         [simpl; lia | done | by rewrite ?H4].
  1-4: eexists [_]; split; [eassumption|]; repeat split;
         [simpl; lia | by intros c [= <-]
         | by rewrite ?reply_error].
  eexists [_; _]. split; [eassumption|]. repeat split.
  - simpl. lia.
  - by intros c [= <-].
  - destruct o as [text|msg]; [eauto | by rewrite reply_error].
Qed.

Lemma backend_calls_bounded_witness :
  let req := json_request [(py "context", JStr (py "We shipped v2"))] in
  let out := run echo_process () GeneratePost req in
  ∃ new,
    calls out.2 = [] ++ new
    ∧ (length new ≤ 2)%nat
    ∧ (∀ c, head new = Some c → c.1 = probe_prompt)
    ∧ (status out.1 = 200 →
       ∃ greeting prompt text,
         new = [(probe_prompt, Returns greeting); (prompt, Returns text)]).
Proof.
  intros req out.
  apply (backend_calls_bounded (H:=echo_process) GeneratePost req
           (@start echo_process ()) out.2 out.1).
  symmetry. apply surjective_pairing.
Defined.

(** X3. An answer with status 400 never follows a template call, and it
    follows a probe only in one case: [modify_post] refusing an action.
    Every other 400 leaves the world as it was. *)
Theorem bad_request_cost `{Process}
    (e : endpoint) (req : request) (w w' : world) (r : response) :
  handle e req w = (r, w') →
  status r = 400 →
  w' = w
  ∨ (e = ModifyPost ∧ r = invalid_action
     ∧ ∃ greeting,
         calls w' = calls w ++ [(probe_prompt, Returns greeting)]).
Proof.
  intros Hrun%handle_cases H400.
  destruct Hrun as [r H4 Hp | | | | | | |]; try by left.
  - right. eauto.
  - by rewrite reply_error in H400.
  - destruct (reply_well_formed (generated e o)) as [[H2 _] | [H5 _]];
      [by rewrite H2 in H400 | by rewrite H5 in H400].
Qed.

Lemma bad_request_cost_witness :
  let req := json_request [(py "context", JStr (py "We shipped v2"));
                           (py "current_post", JStr (py "Big news"));
                           (py "action", JStr (py "shrink"))] in
  let out := run echo_process () ModifyPost req in
  out.2 = @start echo_process ()
  ∨ (ModifyPost = ModifyPost ∧ out.1 = invalid_action
     ∧ ∃ greeting,
         calls out.2 = [] ++ [(probe_prompt, Returns greeting)]).
Proof.
  intros req out.
  apply (bad_request_cost (H:=echo_process) ModifyPost req
           (@start echo_process ()) out.2 out.1).
  - symmetry. apply surjective_pairing.
  - reflexivity.
Defined.

(** ** The served path, call by call *)

Lemma probe_returned `{Process} w service greeting s1 :
  llm = Some service →
  service (backend w) probe_prompt = (Returns greeting, s1) →
  is_ollama_available w
  = (Ok true,
     {| backend := s1;
        calls := calls w ++ [(probe_prompt, Returns greeting)] |}).
Proof.
  intros Hllm Hs. unfold is_ollama_available, llm_invoke.
  by rewrite Hllm, Hs.
Qed.

Lemma template_sent `{Process} e tpl name value w service o s2 :
  format (from_template tpl) [(name, py_str value)]
  = Returns (filled tpl (py_str value)) →
  llm = Some service →
  service (backend w) (filled tpl (py_str value)) = (o, s2) →
  invoke_template (from_template tpl) name value (error_label e) w
  = (Ok (generated e o),
     {| backend := s2;
        calls := calls w ++ [(filled tpl (py_str value), o)] |}).
Proof.
  intros Hformat Hllm Hs. unfold invoke_template, llm_invoke.
  rewrite Hllm, Hformat, Hs. by destruct o.
Qed.

(** X4. [generate_post] and [regenerate_post] on a request they accept:
    a JSON object whose context is text (or a list), a backend whose
    probe returns.  The backend then receives exactly one more call: the
    route's template with the whole context -- not the 50 characters cut
    for the log -- in the place of its field, sent to the state the probe
    left.  The answer is [reply] on what that call brought. *)
Theorem context_route_served `{Process}
    (e : endpoint) (tpl : pystr) (m : gmap pystr json) (v : json)
    (w : world) service greeting s1 o s2 :
  context_template e = Some tpl →
  m !! py "context" = Some v →
  sliceable v = true →
  llm = Some service →
  service (backend w) probe_prompt = (Returns greeting, s1) →
  service s1 (filled tpl (py_str v)) = (o, s2) →
  handle e (object_request m) w
  = (reply (generated e o),
     {| backend := s2;
        calls := calls w ++ [(probe_prompt, Returns greeting);
                             (filled tpl (py_str v), o)] |})
  ∧ contains (filled tpl (py_str v)) (py_str v) = true.
Proof.
  intros Htpl Hm Hv Hllm Hprobe Hcall.
  split; [|apply contains_middle].
  pose proof (probe_returned _ _ _ _ Hllm Hprobe) as Hgate.
  assert (∀ w0, py_in (py "context") (JObj m) w0 = (Ok true, w0)) as Hin.
  { intros w0. simpl. by rewrite Hm. }
  assert (∀ w0, py_getitem (JObj m) (py "context") w0 = (Ok v, w0)) as Hget.
  { intros w0. simpl. by rewrite Hm. }
  assert (∀ w0, ∃ cut, py_slice50 v w0 = (Ok cut, w0)) as Hcut.
  { intros w0. destruct v; try done; simpl; eauto. }
  set (w1 := {| backend := s1;
                calls := calls w ++ [(probe_prompt, Returns greeting)] |})
    in *.
  destruct (Hcut w1) as [cut Hcut1].
  unfold handle.
  destruct e; simplify_eq/=; unfold generate_post, regenerate_post,
    object_request; cbn [is_json json_body negb];
    (erewrite dispatch_bind; [|reflexivity]);
    rewrite (dispatch_bind _ _ _ _ _ (Hin w)); cbn [negb];
    rewrite (dispatch_bind _ _ _ _ _ Hgate); cbn [negb];
    rewrite (dispatch_bind _ _ _ _ _ (Hget w1));
    rewrite (dispatch_bind _ _ _ _ _ Hcut1).
  - unfold generate_linkedin_post.
    rewrite (dispatch_bind _ _ _ _ _
               (template_sent GeneratePost generate_template _ _ w1 _ _ _
                  (format_generate _) Hllm Hcall)).
    rewrite dispatch_ret. simpl. by rewrite <- app_assoc.
  - unfold regenerate_linkedin_post.
    rewrite (dispatch_bind _ _ _ _ _
               (template_sent RegeneratePost regenerate_template _ _ w1 _ _ _
                  (format_regenerate _) Hllm Hcall)).
    rewrite dispatch_ret. simpl. by rewrite <- app_assoc.
Qed.

Lemma context_route_served_witness :
  let m : gmap pystr json :=
    list_to_map [(py "context", JStr (py "We shipped v2"))] in
  let prompt := filled regenerate_template (py "We shipped v2") in
  run echo_process () RegeneratePost (object_request m)
  = (reply (generated RegeneratePost (Returns prompt)),
     @Build_world echo_process ()
       ([] ++ [(probe_prompt, Returns probe_prompt);
               (prompt, Returns prompt)]))
  ∧ contains prompt (py "We shipped v2") = true.
Proof.
  intros m prompt.
  by apply (context_route_served (H:=echo_process) RegeneratePost
              regenerate_template m (JStr (py "We shipped v2"))
              (@start echo_process ()) (λ _ p, (Returns p, ()))
              probe_prompt () (Returns prompt) ()).
Defined.

(** X5. [modify_post] on a request it accepts: the three fields present,
    the action reduce or elaborate, a backend whose probe returns.  The
    backend then receives exactly one more call: the template the action
    selects, with [str(current_post)] in the place of its field.  The
    answer is [reply] on what that call brought. *)
Theorem modify_route_served `{Process}
    (m : gmap pystr json) (post action : json) (tpl : pystr)
    (w : world) service greeting s1 o s2 :
  is_Some (m !! py "context") →
  m !! py "current_post" = Some post →
  m !! py "action" = Some action →
  action_template action = Some tpl →
  llm = Some service →
  service (backend w) probe_prompt = (Returns greeting, s1) →
  service s1 (filled tpl (py_str post)) = (o, s2) →
  handle ModifyPost (object_request m) w
  = (reply (generated ModifyPost o),
     {| backend := s2;
        calls := calls w ++ [(probe_prompt, Returns greeting);
                             (filled tpl (py_str post), o)] |}).
Proof.
  intros Hctx Hpost Haction Htpl Hllm Hprobe Hcall.
  pose proof (probe_returned _ _ _ _ Hllm Hprobe) as Hgate.
  assert (∀ f, f ∈ required_fields → is_Some (m !! f)) as Hall.
  { intros f Hf. unfold required_fields in Hf.
    repeat (apply elem_of_cons in Hf as [-> | Hf]; [by eauto|]).
    by apply elem_of_nil in Hf. }
  assert (∀ w0, py_getitem (JObj m) (py "action") w0 = (Ok action, w0))
    as Hget_action by (intros w0; simpl; by rewrite Haction).
  assert (∀ w0, py_getitem (JObj m) (py "current_post") w0 = (Ok post, w0))
    as Hget_post by (intros w0; simpl; by rewrite Hpost).
  set (w1 := {| backend := s1;
                calls := calls w ++ [(probe_prompt, Returns greeting)] |})
    in *.
  assert (modify_linkedin_post post action w1
          = (Ok (generated ModifyPost o),
             {| backend := s2;
                calls := calls w1 ++ [(filled tpl (py_str post), o)] |}))
    as Hhelper.
  { unfold modify_linkedin_post, action_template in *.
    destruct (json_eq_str action (py "reduce")).
    - simplify_eq.
      exact (template_sent ModifyPost reduce_template _ _ w1 _ _ _
               (format_reduce _) Hllm Hcall).
    - destruct (json_eq_str action (py "elaborate")); simplify_eq.
      exact (template_sent ModifyPost elaborate_template _ _ w1 _ _ _
               (format_elaborate _) Hllm Hcall). }
  assert (negb (json_eq_str action (py "reduce")
                || json_eq_str action (py "elaborate")) = false) as Hvalid.
  { unfold action_template in Htpl.
    destruct (json_eq_str action (py "reduce")); [done|].
    by destruct (json_eq_str action (py "elaborate")). }
  unfold handle, view_of, modify_post, object_request.
  cbn [is_json json_body negb].
  erewrite dispatch_bind; [|reflexivity].
  erewrite dispatch_bind;
    [|by rewrite missing_from_object, nothing_missing].
  cbv beta iota.
  rewrite (dispatch_bind _ _ _ _ _ Hgate). cbn [negb].
  rewrite !(dispatch_bind _ _ _ _ _ (Hget_action w1)).
  rewrite Hvalid.
  rewrite (dispatch_bind _ _ _ _ _ (Hget_post w1)).
  rewrite (dispatch_bind _ _ _ _ _ (Hget_action w1)).
  rewrite (dispatch_bind _ _ _ _ _ Hhelper), dispatch_ret.
  simpl. by rewrite <- app_assoc.
Qed.

Lemma modify_route_served_witness :
  let m : gmap pystr json :=
    list_to_map [(py "context", JStr (py "We shipped v2"));
                 (py "current_post", JStr (py "Big news"));
                 (py "action", JStr (py "elaborate"))] in
  let prompt := filled elaborate_template (py "Big news") in
  run echo_process () ModifyPost (object_request m)
  = (reply (generated ModifyPost (Returns prompt)),
     @Build_world echo_process ()
       ([] ++ [(probe_prompt, Returns probe_prompt);
               (prompt, Returns prompt)])).
Proof.
  intros m prompt.
  apply (modify_route_served (H:=echo_process) m (JStr (py "Big news"))
           (JStr (py "elaborate")) elaborate_template
           (@start echo_process ()) (λ _ p, (Returns p, ()))
           probe_prompt () (Returns prompt) ());
    [vm_compute; eauto | reflexivity..].
Defined.

(** ** What the views do not look at *)

(** X6. Among the payloads the parser delivers as objects, a field the
    route does not ask for changes nothing: two delivered objects that
    differ only in such a field get the same response and leave the same
    world.  (A field the parser chokes on is another matter: that
    request never reaches the view, see [non_json_rejected].) *)
Theorem unknown_field_ignored `{Process}
    (e : endpoint) (k : pystr) (v : json) (m : gmap pystr json) (w : world) :
  k ∉ required_of e →
  handle e (object_request (<[k := v]> m)) w
  = handle e (object_request m) w.
Proof.
  intros Hk. destruct e; simpl in Hk.
  - apply not_elem_of_cons in Hk as [Hk _].
    unfold_view. simpl. by rewrite !lookup_insert_ne.
  - apply not_elem_of_cons in Hk as [Hk _].
    unfold_view. simpl. by rewrite !lookup_insert_ne.
  - unfold required_fields in Hk.
    apply not_elem_of_cons in Hk as [Hctx Hk].
    apply not_elem_of_cons in Hk as [Hpost Hk].
    apply not_elem_of_cons in Hk as [Haction _].
    unfold handle, dispatch, view_of.
    rewrite (modify_post_lookups (<[k := v]> m) m); [done | | |];
      by rewrite lookup_insert_ne.
Qed.

Lemma unknown_field_ignored_witness :
  let m : gmap pystr json :=
    list_to_map [(py "context", JStr (py "We shipped v2"))] in
  run echo_process () GeneratePost
    (object_request (<[py "tone" := JStr (py "formal")]> m))
  = run echo_process () GeneratePost (object_request m).
Proof.
  intros m.
  apply (unknown_field_ignored (H:=echo_process) GeneratePost (py "tone")).
  intros Hin%list_elem_of_singleton. by vm_compute in Hin.
Defined.

(** ** The prefix test *)

(** X7. The Error test looks at the text before it is stripped.  A text
    that starts with whitespace is therefore always a success, whatever
    follows the whitespace: the post is the stripped text, and it may
    itself start with Error. *)
Theorem leading_blank_is_success `{Process}
    (e : endpoint) (req : request) (w w' : world) (r : response)
    (c : pystr * outcome) (p : pystr) (blank_char : N) (rest : pystr) :
  handle e req w = (r, w') →
  calls w' = calls w ++ [c; (p, Returns (blank_char :: rest))] →
  is_space blank_char = true →
  r = respond (JsonPost (strip (blank_char :: rest))) 200.
Proof.
  intros Hrun Hcalls Hblank.
  rewrite (second_call _ _ _ _ _ _ _ _ Hrun Hcalls).
  unfold reply, generated.
  change (py "Error") with [69; 114; 114; 111; 114].
  cbn [startswith]. destruct (69 =? blank_char) eqn:HE; [|done].
  apply N.eqb_eq in HE as <-. done.
Qed.

Lemma leading_blank_is_success_witness :
  let req := json_request [(py "context", JStr (py "Incident review"))] in
  let raw := py " Error: out of memory" in
  let out := run scripted_process [Returns (py "Hello"); Returns raw]
               GeneratePost req in
  out.1 = respond (JsonPost (py "Error: out of memory")) 200.
Proof.
  intros req raw out.
  change (py "Error: out of memory") with (strip (32 :: py "Error: out of memory")).
  eapply (leading_blank_is_success (H:=scripted_process) GeneratePost req
            (@start scripted_process [Returns (py "Hello"); Returns raw])
            out.2 out.1).
  - symmetry. apply surjective_pairing.
  - vm_compute. reflexivity.
  - reflexivity.
Defined.

(** ** Payloads the views cannot read *)

(** X8. [generate_post] and [regenerate_post] cut the context for their
    log line before they use it.  When the context is a number, a
    boolean, null or an object the cut raises: with the backend up, the
    probe has been sent, no template follows, and the answer is Flask's
    error page with status 500. *)
Theorem unsliceable_context_crashes `{Process}
    (e : endpoint) (m : gmap pystr json) (v : json) (w w1 : world) :
  e ≠ ModifyPost →
  m !! py "context" = Some v →
  sliceable v = false →
  is_ollama_available w = (Ok true, w1) →
  handle e (object_request m) w = (respond ErrorPage 500, w1)
  ∧ ∃ greeting, calls w1 = calls w ++ [(probe_prompt, Returns greeting)].
Proof.
  intros He Hm Hv Hgate. split.
  - assert (∀ w0, py_in (py "context") (JObj m) w0 = (Ok true, w0)) as Hin.
    { intros w0. simpl. by rewrite Hm. }
    assert (∀ w0, py_getitem (JObj m) (py "context") w0 = (Ok v, w0))
      as Hget by (intros w0; simpl; by rewrite Hm).
    assert (∃ x, py_slice50 v w1 = (Raise x, w1) ∧ x ≠ BadRequest)
      as (x & Hcut & Hx).
    { destruct v; try done; simpl;
        (by exists TypeError) || (by exists KeyError). }
    unfold handle.
    destruct e; [| |done]; simpl;
      unfold generate_post, regenerate_post, object_request;
      cbn [is_json json_body negb];
      (erewrite dispatch_bind; [|reflexivity]);
      rewrite (dispatch_bind _ _ _ _ _ (Hin w)); cbn [negb];
      rewrite (dispatch_bind _ _ _ _ _ Hgate); cbn [negb];
      rewrite (dispatch_bind _ _ _ _ _ (Hget w1));
      by rewrite (dispatch_crash _ _ _ _ _ Hcut Hx).
  - destruct (probe_calls _ _ _ Hgate) as [[? _] | (o & Hcalls & Ho)];
      [done|]. destruct o as [greeting|]; [eauto | done].
Qed.

Lemma unsliceable_context_crashes_witness :
  let m : gmap pystr json :=
    list_to_map [(py "context", JNum (py "2024"))] in
  let w1 := @Build_world echo_process ()
              [(probe_prompt, Returns probe_prompt)] in
  run echo_process () GeneratePost (object_request m)
  = (respond ErrorPage 500, w1)
  ∧ ∃ greeting, calls w1 = [] ++ [(probe_prompt, Returns greeting)].
Proof.
  intros m w1.
  by apply (unsliceable_context_crashes (H:=echo_process) GeneratePost m
              (JNum (py "2024")) (@start echo_process ()) w1).
Defined.

Lemma py_getitem_not_object `{Process} data key w :
  (∀ m, data ≠ JObj m) → py_getitem data key w = (Raise TypeError, w).
Proof. intros Hdata. destruct data; try done. by destruct (Hdata m). Qed.

Lemma gate_then_crash `{Process} data key (k : json → View response)
    w r w' :
  (∀ m, data ≠ JObj m) →
  dispatch (available ← is_ollama_available;
            if negb available then mret unavailable
            else py_getitem data key ≫= k) w = (r, w') →
  status r = 500
  ∧ (w' = w ∨ ∃ o, calls w' = calls w ++ [(probe_prompt, o)]).
Proof.
  intros Hdata.
  destruct (is_ollama_available_run w)
    as [[_ Hp] | (service & o & s & _ & _ & Hp)];
    rewrite (dispatch_bind _ _ _ _ _ Hp); simpl.
  - rewrite dispatch_ret. intros [= <- <-]. eauto.
  - destruct o; simpl.
    + rewrite (dispatch_crash _ _ _ _ _
                 (py_getitem_not_object _ _ _ Hdata)) by done.
      intros [= <- <-]. eauto.
    + rewrite dispatch_ret. intros [= <- <-]. eauto.
Qed.

(** X9. Only a JSON object can be served.  When the payload is any other
    JSON value -- an array, a string, a number, a boolean, null -- the
    answer is never a success and no template is sent: the run stops
    with status 400 or 500 after at most the probe.  An array or a string
    that holds the field names passes the presence test and costs the
    probe before the view crashes. *)
Theorem non_object_never_served `{Process}
    (e : endpoint) (mimetype_json : bool) (data : json)
    (w w' : world) (r : response) :
  (∀ m, data ≠ JObj m) →
  handle e {| is_json := mimetype_json; json_body := Loaded data |} w
  = (r, w') →
  (status r = 400 ∨ status r = 500)
  ∧ is_post (payload r) = false
  ∧ (w' = w ∨ ∃ o, calls w' = calls w ++ [(probe_prompt, o)]).
Proof.
  intros Hdata Hrun.
  assert (status r = 500 ∧
            (w' = w ∨ ∃ o, calls w' = calls w ++ [(probe_prompt, o)])
          ∨ status r = 400 ∧ w' = w) as Hend.
  { revert Hrun. unfold handle.
    destruct mimetype_json.
    2: { destruct e; simpl; unfold generate_post, regenerate_post,
           modify_post; simpl; rewrite dispatch_ret; intros [= <- <-];
           by right. }
    destruct e; simpl; unfold generate_post, regenerate_post, modify_post;
      cbn [is_json json_body negb];
      (erewrite dispatch_bind; [|reflexivity]).
    - destruct (py_in_cases (py "context") data w) as [[present Hin] | Hin].
      2: { rewrite (dispatch_crash _ _ _ _ _ Hin) by done.
           intros [= <- <-]. left. eauto. }
      rewrite (dispatch_bind _ _ _ _ _ Hin).
      destruct present; simpl;
        [|rewrite dispatch_ret; intros [= <- <-]; by right].
      intros Hrun. left. by eapply gate_then_crash.
    - destruct (py_in_cases (py "context") data w) as [[present Hin] | Hin].
      2: { rewrite (dispatch_crash _ _ _ _ _ Hin) by done.
           intros [= <- <-]. left. eauto. }
      rewrite (dispatch_bind _ _ _ _ _ Hin).
      destruct present; simpl;
        [|rewrite dispatch_ret; intros [= <- <-]; by right].
      intros Hrun. left. by eapply gate_then_crash.
    - destruct (missing_from_cases required_fields data w)
        as [[missing Hmissing] | Hmissing].
      2: { rewrite (dispatch_crash _ _ _ _ _ Hmissing) by done.
           intros [= <- <-]. left. eauto. }
      rewrite (dispatch_bind _ _ _ _ _ Hmissing).
      destruct missing;
        [|rewrite dispatch_ret; intros [= <- <-]; by right].
      intros Hrun. left. by eapply gate_then_crash. }
  pose proof (response_shape := handle_cases _ _ _ _ _ Hrun).
  assert (status r ≠ 200) as Hnot200.
  { destruct Hend as [[-> _] | [-> _]]; done. }
  split; [destruct Hend as [[? _] | [? _]]; eauto|]. split.
  - destruct response_shape; try done.
    + destruct (reply_well_formed (generated e (Raises msg)))
        as [[? ?] | [? ?]]; done.
    + destruct (reply_well_formed (generated e o)) as [[? ?] | [? ?]]; done.
  - destruct Hend as [[_ ?] | [_ ->]]; eauto.
Qed.

Lemma non_object_never_served_witness :
  let data := JArr [JStr (py "context")] in
  let req := {| is_json := true; json_body := Loaded data |} in
  let out := run echo_process () GeneratePost req in
  (status out.1 = 400 ∨ status out.1 = 500)
  ∧ is_post (payload out.1) = false
  ∧ (out.2 = @start echo_process ()
     ∨ ∃ o, calls out.2 = [] ++ [(probe_prompt, o)]).
Proof.
  intros data req out.
  apply (non_object_never_served (H:=echo_process) GeneratePost true data
           (@start echo_process ()) out.2 out.1).
  - done.
  - symmetry. apply surjective_pairing.
Defined.

(** ** Messages *)

(** X10. The message [modify_post] gives for missing fields is the text
    Missing fields: followed by the names of the absent fields, in the
    order context, current_post, action, separated by a comma and a
    space. *)
Theorem missing_fields_message `{Process}
    (m : gmap pystr json) (w : world) (first : pystr) (others : list pystr) :
  filter (λ f, m !! f = None) [py "context"; py "current_post"; py "action"]
  = first :: others →
  handle ModifyPost (object_request m) w
  = (respond
       (JsonError (py "Missing fields: "
                   ++ join (py ", ") (first :: others))) 400, w).
Proof.
  intros Hmissing. unfold handle, view_of, modify_post, object_request.
  cbn [is_json json_body negb].
  erewrite dispatch_bind; [|reflexivity].
  erewrite dispatch_bind; [|apply missing_from_object].
  unfold required_fields. rewrite Hmissing. by rewrite dispatch_ret.
Qed.

Lemma missing_fields_message_witness :
  run echo_process () ModifyPost
    (object_request (<[py "current_post" := JStr (py "Big news")]> ∅))
  = (respond (JsonError (py "Missing fields: context, action")) 400,
     @start echo_process ()).
Proof.
  change (py "Missing fields: context, action")
    with (py "Missing fields: "
          ++ join (py ", ") [py "context"; py "action"]).
  apply (missing_fields_message (H:=echo_process)). by vm_compute.
Defined.

(** X11. [modify_linkedin_post] has a refusal of its own: given an
    action other than reduce and elaborate it makes no call and hands
    back the text Invalid action: followed by [str(action)].  That text
    does not start with Error, so [reply] on it is a post with status
    200: the refusal is not an error for the prefix test. *)
Theorem helper_refusal_not_an_error `{Process}
    (post action : json) (w : world) :
  action_template action = None →
  modify_linkedin_post post action w
  = (Ok (py "Invalid action: " ++ py_str action), w)
  ∧ reply (py "Invalid action: " ++ py_str action)
    = respond (JsonPost (strip (py "Invalid action: " ++ py_str action))) 200.
Proof.
  unfold action_template, modify_linkedin_post. intros Haction.
  destruct (json_eq_str action (py "reduce")); [done|].
  destruct (json_eq_str action (py "elaborate")); [done|].
  done.
Qed.

Lemma helper_refusal_not_an_error_witness :
  @modify_linkedin_post echo_process (JStr (py "Big news"))
    (JStr (py "shrink")) (@start echo_process ())
  = (Ok (py "Invalid action: " ++ py "shrink"), @start echo_process ())
  ∧ reply (py "Invalid action: " ++ py "shrink")
    = respond (JsonPost (strip (py "Invalid action: " ++ py "shrink"))) 200.
Proof.
  by apply (helper_refusal_not_an_error (H:=echo_process)
              (JStr (py "Big news")) (JStr (py "shrink"))).
Defined.

(** ** The status route *)

(** X12. [root] reports on the backend instead of failing with it.  It
    answers with status 200 in every world.  Without a handle it calls
    nothing and reports ollama_available false.  With a handle it sends
    the probe prompt once, leaves the backend in the state that call
    left, and reports ollama_available true exactly when the call
    returned: an exception, whatever its message, becomes false. *)
Theorem root_reports_probe `{Process} (w : world) :
  ∃ report w1,
    root w = (Ok (report, 200), w1)
    ∧ ((llm = None ∧ report_ollama_available report = false ∧ w1 = w)
       ∨ (∃ service o s,
             llm = Some service
             ∧ service (backend w) probe_prompt = (o, s)
             ∧ w1 = {| backend := s;
                       calls := calls w ++ [(probe_prompt, o)] |}
             ∧ report_ollama_available report = returned o)).
Proof.
  unfold root, mbind, view_bind.
  destruct (is_ollama_available_run w)
    as [[Hnone ->] | (service & o & s & Hllm & Hs & ->)].
  - eexists _, w. split; [done|]. by left.
  - eexists _, _. split; [done|]. right. by exists service, o, s.
Qed.

(** ** A successful answer *)

(** C8. On each generation route, a run that answers with status 200
    has made exactly two calls, the probe and then the template call,
    and both returned; its payload is the post field, and the post is
    the text the template call returned, stripped.  Stripped means: the
    raw text is the post between two runs of whitespace, and the post
    neither starts nor ends with whitespace. *)
Theorem post_is_stripped `{Process}
    (e : endpoint) (req : request) (w w' : world) (r : response) :
  handle e req w = (r, w') →
  status r = 200 →
  ∃ greeting prompt raw post,
    calls w' = calls w ++ [(probe_prompt, Returns greeting);
                           (prompt, Returns raw)]
    ∧ payload r = JsonPost post
    ∧ post = strip raw
    ∧ ∃ l t, raw = l ++ post ++ t ∧ blank l ∧ blank t
             ∧ (∀ x s, post = x :: s → is_space x = false)
             ∧ (∀ s x, post = s ++ [x] → is_space x = false).
Proof.
  intros Hrun%handle_cases Hok.
  destruct Hrun as [r H4 Hp | | | | | | |];
    try done; try (by rewrite H4 in Hok); try (by rewrite reply_error in Hok).
  destruct o as [raw|msg]; [|by rewrite reply_error in Hok].
  unfold reply, generated in Hok |- *.
  destruct (startswith raw (py "Error")); [done|].
  exists greeting, prompt, raw, (strip raw).
  split; [done|]. split; [done|]. split; [done|]. apply strip_spec.
Qed.

Lemma post_is_stripped_witness :
  let req := json_request [(py "context", JStr (py "Say hi"))] in
  let out := run scripted_process
               [Returns (py "Hello"); Returns (py "  Hi there  ")]
               GeneratePost req in
  payload out.1 = JsonPost (py "Hi there")
  ∧ ∃ greeting prompt,
      calls out.2 = [(probe_prompt, Returns greeting);
                     (prompt, Returns (py "  Hi there  "))].
Proof.
  intros req out.
  destruct (post_is_stripped (H:=scripted_process) GeneratePost req
              (@start scripted_process
                 [Returns (py "Hello"); Returns (py "  Hi there  ")])
              out.2 out.1)
    as (greeting & prompt & raw & post & Hcalls & Hpayload & Hpost & _).
  - symmetry. apply surjective_pairing.
  - reflexivity.
  - assert (raw = py "  Hi there  ") as ->.
    { vm_compute in Hcalls. by injection Hcalls as _ _ <-. }
    split; [by rewrite Hpayload, Hpost|].
    exists greeting, prompt. exact Hcalls.
Defined.
